(** * The in-memory TTL cache of tyagnii/ecom_test and its caching repository

    A shallow embedding of [cache/cache.go] and [cache/cached_repository.go].

    - Go's [int] is a 64-bit integer and is carried as a [Z]; the conversions
      [rune(id)] and [string(r)] are written out ([Go.rune], [Go.encoderune]).
    - A Go [string] is a sequence of bytes: Rocq's [string] of [ascii].
    - [time.Time] is an instant on the integer line (nanoseconds), a
      [time.Duration] a signed number of nanoseconds; every call of
      [time.Now()] in the source is an explicit [now] argument.
    - The map [items] is a [gmap string CacheItem.t]; the receiver [c] that
      the methods mutate under [c.mu] is passed in and returned.  The
      embedding is sequential: every method runs as one atomic step, and the
      reaper goroutine is not scheduled between two calls.
    - Every Go struct [T] is a module [T] with its record [T.t] and, for the
      receiver types, its methods under their source names.
    - The cached repository threads its receiver through a small state
      monad; next to the database state and the cache the receiver carries
      the list of the calls made to the backing store, so that "served from
      the cache" and "triggers a backing-store call" are statements about
      that list. *)

From Stdlib Require Import ZArith Ascii String Lia.
From stdpp Require Import gmap strings list fin_maps.

Local Open Scope string_scope.
Local Open Scope Z_scope.

(** ** Go primitives used by the cache *)

Module Go.

(** Two's-complement reduction of an integer to [w] bits (signed). *)
Definition wrap (w : Z) (x : Z) : Z :=
  (x + 2 ^ (w - 1)) mod 2 ^ w - 2 ^ (w - 1).

(** [x++] on an [int64] counter. *)
Definition incr64 (x : Z) : Z := wrap 64 (x + 1).

(** The conversion [rune(id)] from [int] to [int32]. *)
Definition rune (id : Z) : Z := wrap 32 id.

(** [byte(x)]: the low eight bits. *)
Definition byte (x : Z) : ascii := ascii_of_N (Z.to_N (Z.land x 255)).

Definition runeError : Z := 65533.
Definition maxRune : Z := 1114111.
Definition surrogateMin : Z := 55296.
Definition surrogateMax : Z := 57343.

Definition str1 (a : ascii) : string := String a EmptyString.

(** The three-byte form of [encoderune]. *)
Definition encode3 (r : Z) : string :=
  String (byte (Z.lor 224 (Z.shiftr r 12)))
    (String (byte (Z.lor 128 (Z.land (Z.shiftr r 6) 63)))
       (str1 (byte (Z.lor 128 (Z.land r 63))))).

(** [encoderune] of the Go runtime: the UTF-8 form of a rune.  [i] is
    [uint32(r)], so a negative rune is out of range; runes beyond [maxRune]
    and surrogates are replaced by [runeError]. *)
Definition encoderune (r : Z) : string :=
  let i := r mod 2 ^ 32 in
  if i <=? 127 then str1 (byte r)
  else if i <=? 2047 then
    String (byte (Z.lor 192 (Z.shiftr r 6)))
      (str1 (byte (Z.lor 128 (Z.land r 63))))
  else if (maxRune <? i) || ((surrogateMin <=? i) && (i <=? surrogateMax))
    then encode3 runeError
  else if i <=? 65535 then encode3 r
  else
    String (byte (Z.lor 240 (Z.shiftr r 18)))
      (String (byte (Z.lor 128 (Z.land (Z.shiftr r 12) 63)))
         (String (byte (Z.lor 128 (Z.land (Z.shiftr r 6) 63)))
            (str1 (byte (Z.lor 128 (Z.land r 63)))))).

(** The conversion [string(r)] of a rune [r]. *)
Definition string_of_rune (r : Z) : string := encoderune r.

(** [len(s)], a number of bytes. *)
Definition len (s : string) : Z := Z.of_nat (String.length s).

(** [s[:n]], for [n <= len(s)]. *)
Definition slice_to (n : nat) (s : string) : string := substring 0 n s.

(** A Go [error] value that is not [nil]: its message. *)
Definition error : Type := string.

(** [time.Second] and [time.Minute], in nanoseconds. *)
Definition Second : Z := 1000000000.
Definition Minute : Z := 60 * Second.

End Go.

(** ** Payload types ([dto] and [db] packages) *)

Module Banner.
Record t : Type := { ID : Z; Name : string; CreatedAt : Z; UpdatedAt : Z }.
End Banner.

Module Click.
Record t : Type := { ID : Z; Timestamp : Z; BannerID : Z; CreatedAt : Z }.
End Click.

Module ClickStats.
Record t : Type :=
  { BannerID : Z; TotalClicks : Z; FirstClick : Z; LastClick : Z }.
End ClickStats.

Module BannerWithStats.
Record t : Type :=
  { Banner : Banner.t; ClickCount : Z; LastClick : option Z }.
End BannerWithStats.

Module BannerClickCount.
Record t : Type := { BannerID : Z; BannerName : string; ClickCount : Z }.
End BannerClickCount.

(** The values that the cache holds in an [interface{}], by dynamic type.
    The pointers are not [nil]: the methods that store them dereference them
    or receive them from a successful repository call. *)
Inductive any : Type :=
| PtrBanner (b : Banner.t)
| PtrClickStats (s : ClickStats.t)
| PtrBannerWithStats (s : BannerWithStats.t)
| SliceBannerClickCount (l : list BannerClickCount.t).

(** The type assertions of the typed reads (to a pointer to [dto.Banner] and
    the like), on an interface value that may be [nil]: the asserted value
    and [ok], or the zero value and [false]. *)
Definition assert_Banner (value : option any) : option Banner.t * bool :=
  match value with
  | Some (PtrBanner b) => (Some b, true)
  | _ => (None, false)
  end.

Definition assert_ClickStats (value : option any)
  : option ClickStats.t * bool :=
  match value with
  | Some (PtrClickStats s) => (Some s, true)
  | _ => (None, false)
  end.

Definition assert_BannerWithStats (value : option any)
  : option BannerWithStats.t * bool :=
  match value with
  | Some (PtrBannerWithStats s) => (Some s, true)
  | _ => (None, false)
  end.

Definition assert_TopBanners (value : option any)
  : option (list BannerClickCount.t) * bool :=
  match value with
  | Some (SliceBannerClickCount l) => (Some l, true)
  | _ => (None, false)
  end.

(** ** [cache.go] *)

Module CacheItem.

Record t : Type := { Value : any; ExpiresAt : Z }.

(** [time.Now().After(item.ExpiresAt)] *)
Definition IsExpired (now : Z) (item : t) : bool := ExpiresAt item <? now.

End CacheItem.

Module CacheStats.

Record t : Type :=
  { Hits : Z; Misses : Z; Sets : Z; Deletes : Z; Expirations : Z; Size : Z }.

Definition zero : t :=
  {| Hits := 0; Misses := 0; Sets := 0; Deletes := 0; Expirations := 0;
     Size := 0 |}.

(** The field updates [s.Hits++] and the like. *)
Definition incrHits (s : t) : t :=
  {| Hits := Go.incr64 (Hits s); Misses := Misses s; Sets := Sets s;
     Deletes := Deletes s; Expirations := Expirations s; Size := Size s |}.

Definition incrMisses (s : t) : t :=
  {| Hits := Hits s; Misses := Go.incr64 (Misses s); Sets := Sets s;
     Deletes := Deletes s; Expirations := Expirations s; Size := Size s |}.

Definition incrSets (s : t) : t :=
  {| Hits := Hits s; Misses := Misses s; Sets := Go.incr64 (Sets s);
     Deletes := Deletes s; Expirations := Expirations s; Size := Size s |}.

Definition incrDeletes (s : t) : t :=
  {| Hits := Hits s; Misses := Misses s; Sets := Sets s;
     Deletes := Go.incr64 (Deletes s); Expirations := Expirations s;
     Size := Size s |}.

Definition incrExpirations (s : t) : t :=
  {| Hits := Hits s; Misses := Misses s; Sets := Sets s;
     Deletes := Deletes s; Expirations := Go.incr64 (Expirations s);
     Size := Size s |}.

Definition setSize (n : Z) (s : t) : t :=
  {| Hits := Hits s; Misses := Misses s; Sets := Sets s;
     Deletes := Deletes s; Expirations := Expirations s; Size := n |}.

(** [s.Expirations += n] *)
Definition addExpirations (n : Z) (s : t) : t :=
  {| Hits := Hits s; Misses := Misses s; Sets := Sets s;
     Deletes := Deletes s; Expirations := Go.wrap 64 (Expirations s + n);
     Size := Size s |}.

End CacheStats.

Module InMemoryCache.

Record t : Type :=
  { items : gmap string CacheItem.t; stats : CacheStats.t }.

Definition withStats (f : CacheStats.t -> CacheStats.t) (c : t) : t :=
  {| items := items c; stats := f (stats c) |}.

(** [get] retrieves an item from cache. *)
Definition get (now : Z) (key : string) (c : t) : (option any * bool) * t :=
  match items c !! key with
  | None => ((None, false), withStats CacheStats.incrMisses c)
  | Some item =>
      if CacheItem.IsExpired now item then
        ((None, false),
         {| items := base.delete key (items c);
            stats := CacheStats.incrMisses
                       (CacheStats.incrExpirations (stats c)) |})
      else
        ((Some (CacheItem.Value item), true),
         withStats CacheStats.incrHits c)
  end.

(** [set] stores an item in cache with TTL. *)
Definition set (now : Z) (key : string) (value : any) (ttl : Z) (c : t) : t :=
  {| items :=
       <[key := {| CacheItem.Value := value;
                   CacheItem.ExpiresAt := now + ttl |}]> (items c);
     stats := CacheStats.incrSets (stats c) |}.

(** [delete] removes an item from cache. *)
Definition delete (key : string) (c : t) : t :=
  match items c !! key with
  | Some _ =>
      {| items := base.delete key (items c);
         stats := CacheStats.incrDeletes (stats c) |}
  | None => c
  end.

Definition GetBanner (now : Z) (id : Z) (c : t)
  : (option Banner.t * bool) * t :=
  let key := "banner:" +:+ Go.string_of_rune (Go.rune id) in
  let '((value, found), c') := get now key c in
  if negb found then ((None, false), c') else (assert_Banner value, c').

Definition SetBanner (now : Z) (banner : Banner.t) (ttl : Z) (c : t) : t :=
  let key := "banner:" +:+ Go.string_of_rune (Go.rune (Banner.ID banner)) in
  set now key (PtrBanner banner) ttl c.

Definition DeleteBanner (id : Z) (c : t) : t :=
  let key := "banner:" +:+ Go.string_of_rune (Go.rune id) in
  delete key c.

Definition GetClickStats (now : Z) (bannerID : Z) (c : t)
  : (option ClickStats.t * bool) * t :=
  let key := "click_stats:" +:+ Go.string_of_rune (Go.rune bannerID) in
  let '((value, found), c') := get now key c in
  if negb found then ((None, false), c') else (assert_ClickStats value, c').

Definition SetClickStats (now : Z) (bannerID : Z) (stats : ClickStats.t)
    (ttl : Z) (c : t) : t :=
  let key := "click_stats:" +:+ Go.string_of_rune (Go.rune bannerID) in
  set now key (PtrClickStats stats) ttl c.

Definition InvalidateClickStats (bannerID : Z) (c : t) : t :=
  let key := "click_stats:" +:+ Go.string_of_rune (Go.rune bannerID) in
  delete key c.

Definition GetBannerWithStats (now : Z) (id : Z) (c : t)
  : (option BannerWithStats.t * bool) * t :=
  let key := "banner_stats:" +:+ Go.string_of_rune (Go.rune id) in
  let '((value, found), c') := get now key c in
  if negb found then ((None, false), c')
  else (assert_BannerWithStats value, c').

Definition SetBannerWithStats (now : Z) (id : Z) (stats : BannerWithStats.t)
    (ttl : Z) (c : t) : t :=
  let key := "banner_stats:" +:+ Go.string_of_rune (Go.rune id) in
  set now key (PtrBannerWithStats stats) ttl c.

Definition InvalidateBannerWithStats (id : Z) (c : t) : t :=
  let key := "banner_stats:" +:+ Go.string_of_rune (Go.rune id) in
  delete key c.

Definition GetTopBanners (now : Z) (limit : Z) (c : t)
  : (option (list BannerClickCount.t) * bool) * t :=
  let key := "top_banners:" +:+ Go.string_of_rune (Go.rune limit) in
  let '((value, found), c') := get now key c in
  if negb found then ((None, false), c') else (assert_TopBanners value, c').

Definition SetTopBanners (now : Z) (limit : Z)
    (banners : list BannerClickCount.t) (ttl : Z) (c : t) : t :=
  let key := "top_banners:" +:+ Go.string_of_rune (Go.rune limit) in
  set now key (SliceBannerClickCount banners) ttl c.

(** The body of the loop of [InvalidateTopBanners], for one key of the
    range: [if len(key) > 11 && key[:11] == "top_banners:"]. *)
Definition InvalidateTopBanners_step (key : string) (c : t) : t :=
  if (11 <? Go.len key) && String.eqb (Go.slice_to 11 key) "top_banners:"
  then {| items := base.delete key (items c);
          stats := CacheStats.incrDeletes (stats c) |}
  else c.

(** [for key := range c.items]: every key of the map is visited once (Go
    allows the body to delete the current key). *)
Definition InvalidateTopBanners (c : t) : t :=
  map_fold (fun key _ c' => InvalidateTopBanners_step key c') c (items c).

Definition InvalidateBanner (id : Z) (c : t) : t :=
  InvalidateTopBanners
    (InvalidateBannerWithStats id
       (InvalidateClickStats id
          (DeleteBanner id c))).

Definition Clear (c : t) : t := {| items := ∅; stats := stats c |}.

Definition Size (c : t) : Z := Z.of_nat (size (items c)).

Definition Stats (c : t) : CacheStats.t :=
  CacheStats.setSize (Z.of_nat (size (items c))) (stats c).

(** One firing of the ticker in [cleanupExpired]: the scan of the map under
    the lock.  [IsExpired] reads the clock once per entry: [clock key] is the
    instant at which the entry of [key] is examined.  [expiredCount] is an
    [int]. *)
Definition cleanupExpired (clock : string -> Z) (c : t) : t :=
  let scan :=
    map_fold
      (fun key item (acc : gmap string CacheItem.t * Z) =>
         if CacheItem.IsExpired (clock key) item
         then (base.delete key acc.1, Go.incr64 acc.2)
         else acc)
      (items c, 0) (items c) in
  {| items := scan.1; stats := CacheStats.addExpirations scan.2 (stats c) |}.

End InMemoryCache.

(** [NewInMemoryCache]: an empty map and zeroed statistics. *)
Definition NewInMemoryCache : InMemoryCache.t :=
  {| InMemoryCache.items := ∅; InMemoryCache.stats := CacheStats.zero |}.

Definition DefaultBannerTTL : Z := 5 * Go.Minute.
Definition DefaultClickStatsTTL : Z := 2 * Go.Minute.
Definition DefaultBannerStatsTTL : Z := 3 * Go.Minute.
Definition DefaultTopBannersTTL : Z := 1 * Go.Minute.

(** The [Cache] interface; [Stop] belongs to the reaper goroutine and has no
    sequential content.  Every method takes the receiver last and returns it;
    the methods that read the clock take [now] first. *)
Module Cache.

Class Ops (C : Type) : Type :=
  { GetBanner : Z -> Z -> C -> (option Banner.t * bool) * C;
    SetBanner : Z -> Banner.t -> Z -> C -> C;
    DeleteBanner : Z -> C -> C;
    InvalidateBanner : Z -> C -> C;
    GetClickStats : Z -> Z -> C -> (option ClickStats.t * bool) * C;
    SetClickStats : Z -> Z -> ClickStats.t -> Z -> C -> C;
    InvalidateClickStats : Z -> C -> C;
    GetBannerWithStats : Z -> Z -> C -> (option BannerWithStats.t * bool) * C;
    SetBannerWithStats : Z -> Z -> BannerWithStats.t -> Z -> C -> C;
    InvalidateBannerWithStats : Z -> C -> C;
    GetTopBanners :
      Z -> Z -> C -> (option (list BannerClickCount.t) * bool) * C;
    SetTopBanners : Z -> Z -> list BannerClickCount.t -> Z -> C -> C;
    InvalidateTopBanners : C -> C;
    Clear : C -> C;
    Size : C -> Z;
    Stats : C -> CacheStats.t }.

End Cache.

(** [InMemoryCache] implements [Cache]. *)
#[global] Instance InMemoryCache_Cache : Cache.Ops InMemoryCache.t :=
  {| Cache.GetBanner := InMemoryCache.GetBanner;
     Cache.SetBanner := InMemoryCache.SetBanner;
     Cache.DeleteBanner := InMemoryCache.DeleteBanner;
     Cache.InvalidateBanner := InMemoryCache.InvalidateBanner;
     Cache.GetClickStats := InMemoryCache.GetClickStats;
     Cache.SetClickStats := InMemoryCache.SetClickStats;
     Cache.InvalidateClickStats := InMemoryCache.InvalidateClickStats;
     Cache.GetBannerWithStats := InMemoryCache.GetBannerWithStats;
     Cache.SetBannerWithStats := InMemoryCache.SetBannerWithStats;
     Cache.InvalidateBannerWithStats := InMemoryCache.InvalidateBannerWithStats;
     Cache.GetTopBanners := InMemoryCache.GetTopBanners;
     Cache.SetTopBanners := InMemoryCache.SetTopBanners;
     Cache.InvalidateTopBanners := InMemoryCache.InvalidateTopBanners;
     Cache.Clear := InMemoryCache.Clear;
     Cache.Size := InMemoryCache.Size;
     Cache.Stats := InMemoryCache.Stats |}.

(** ** The backing store ([db.Repository])

    The repository runs SQL against an external database.  What the database
    answers is not fixed by this repository, so the methods that the cached
    repository calls are the fields of [Repository.Ops], over any type [D] of
    database states.  A result [(x, err)] of a repository method is a
    [Go.error + _] sum: the methods return [x = nil] with an error and a
    pointer that is not [nil] without one.  A result [error] is an
    [option Go.error] ([None] is [nil]).  [CreateBanner] and [CreateClick]
    write the generated id through their pointer argument: they also return
    the pointee. *)
Module Repository.

Record Ops (D : Type) : Type :=
  { CreateBanner : Banner.t -> D -> (Banner.t * option Go.error) * D;
    GetBannerByID : Z -> D -> (Go.error + Banner.t) * D;
    UpdateBanner : Banner.t -> D -> option Go.error * D;
    DeleteBanner : Z -> D -> option Go.error * D;
    CreateClick : Click.t -> D -> (Click.t * option Go.error) * D;
    GetClickByID : Z -> D -> (Go.error + Click.t) * D;
    DeleteClick : Z -> D -> option Go.error * D;
    GetClickStats : Z -> D -> (Go.error + ClickStats.t) * D;
    GetTopBanners : Z -> D -> (Go.error + list BannerClickCount.t) * D }.

Arguments CreateBanner {D}.
Arguments GetBannerByID {D}.
Arguments UpdateBanner {D}.
Arguments DeleteBanner {D}.
Arguments CreateClick {D}.
Arguments GetClickByID {D}.
Arguments DeleteClick {D}.
Arguments GetClickStats {D}.
Arguments GetTopBanners {D}.

(** The calls that reach the backing store, with their arguments. *)
Inductive Call : Type :=
| CallCreateBanner (banner : Banner.t)
| CallGetBannerByID (id : Z)
| CallUpdateBanner (banner : Banner.t)
| CallDeleteBanner (id : Z)
| CallCreateClick (click : Click.t)
| CallGetClickByID (id : Z)
| CallDeleteClick (id : Z)
| CallGetClickStats (bannerID : Z)
| CallGetTopBanners (limit : Z).

End Repository.

(** ** [cached_repository.go] *)

Module CachedRepository.

Section WithBackend.

Context {D C : Type} (R : Repository.Ops D) {K : Cache.Ops C}.

(** The struct, with the database state in place of the handle [repo].
    [trace] is a ghost field: the calls made to the backing store so far,
    oldest first, so that a read served from the cache can be told from one
    that reached the database. *)
Record t : Type :=
  { repo : D; cache : C; trace : list Repository.Call }.

(** A method of [CachedRepository]: a result and the receiver afterwards. *)
Definition M (A : Type) : Type := t -> A * t.

Definition ret {A : Type} (a : A) : M A := fun r => (a, r).

Definition bind {A B : Type} (m : M A) (k : A -> M B) : M B :=
  fun r => let '(a, r') := m r in k a r'.

Notation "'let*' x ':=' m 'in' k" := (bind m (fun x => k))
  (at level 10, x pattern, m at level 100, k at level 200).

(** [r.repo.f(...)] *)
Definition backing {A : Type} (call : Repository.Call) (f : D -> A * D) : M A :=
  fun r =>
    let '(a, d) := f (repo r) in
    (a, {| repo := d; cache := cache r; trace := (trace r ++ [call])%list |}).

(** [r.cache.f(...)], with and without a result. *)
Definition cached {A : Type} (f : C -> A * C) : M A :=
  fun r =>
    let '(a, c) := f (cache r) in
    (a, {| repo := repo r; cache := c; trace := trace r |}).

Definition cached_ (f : C -> C) : M unit :=
  fun r => (tt, {| repo := repo r; cache := f (cache r); trace := trace r |}).

Definition CreateBanner (now : Z) (banner : Banner.t)
  : M (Banner.t * option Go.error) :=
  let* (banner', err) :=
    backing (Repository.CallCreateBanner banner)
            (Repository.CreateBanner R banner) in
  match err with
  | Some e => ret (banner', Some e)
  | None =>
      let* _ := cached_ (Cache.SetBanner now banner' DefaultBannerTTL) in
      let* _ := cached_ Cache.InvalidateTopBanners in
      ret (banner', None)
  end.

(** [now] is the instant of the lookup, [now'] that of the population.  The
    result is the pair [(banner, err)] of Go. *)
Definition GetBannerByID (now now' : Z) (id : Z)
  : M (option Banner.t * option Go.error) :=
  let* (banner, found) := cached (Cache.GetBanner now id) in
  if found then ret (banner, None)
  else
    let* res :=
      backing (Repository.CallGetBannerByID id)
              (Repository.GetBannerByID R id) in
    match res with
    | inl err => ret (None, Some err)
    | inr banner =>
        let* _ := cached_ (Cache.SetBanner now' banner DefaultBannerTTL) in
        ret (Some banner, None)
    end.

Definition UpdateBanner (now : Z) (banner : Banner.t) : M (option Go.error) :=
  let* err :=
    backing (Repository.CallUpdateBanner banner)
            (Repository.UpdateBanner R banner) in
  match err with
  | Some e => ret (Some e)
  | None =>
      let* _ := cached_ (Cache.SetBanner now banner DefaultBannerTTL) in
      let* _ := cached_ (Cache.InvalidateBanner (Banner.ID banner)) in
      ret None
  end.

Definition DeleteBanner (id : Z) : M (option Go.error) :=
  let* err :=
    backing (Repository.CallDeleteBanner id) (Repository.DeleteBanner R id) in
  match err with
  | Some e => ret (Some e)
  | None =>
      let* _ := cached_ (Cache.InvalidateBanner id) in
      ret None
  end.

Definition CreateClick (click : Click.t) : M (Click.t * option Go.error) :=
  let* (click', err) :=
    backing (Repository.CallCreateClick click)
            (Repository.CreateClick R click) in
  match err with
  | Some e => ret (click', Some e)
  | None =>
      let* _ := cached_ (Cache.InvalidateClickStats (Click.BannerID click')) in
      let* _ :=
        cached_ (Cache.InvalidateBannerWithStats (Click.BannerID click')) in
      let* _ := cached_ Cache.InvalidateTopBanners in
      ret (click', None)
  end.

Definition DeleteClick (id : Z) : M (option Go.error) :=
  let* res :=
    backing (Repository.CallGetClickByID id) (Repository.GetClickByID R id) in
  match res with
  | inl e => ret (Some e)
  | inr click =>
      let* err :=
        backing (Repository.CallDeleteClick id)
                (Repository.DeleteClick R id) in
      match err with
      | Some e => ret (Some e)
      | None =>
          let* _ :=
            cached_ (Cache.InvalidateClickStats (Click.BannerID click)) in
          let* _ :=
            cached_ (Cache.InvalidateBannerWithStats (Click.BannerID click)) in
          let* _ := cached_ Cache.InvalidateTopBanners in
          ret None
      end
  end.

Definition GetClickStats (now now' : Z) (bannerID : Z)
  : M (option ClickStats.t * option Go.error) :=
  let* (stats, found) := cached (Cache.GetClickStats now bannerID) in
  if found then ret (stats, None)
  else
    let* res :=
      backing (Repository.CallGetClickStats bannerID)
              (Repository.GetClickStats R bannerID) in
    match res with
    | inl err => ret (None, Some err)
    | inr stats =>
        let* _ :=
          cached_ (Cache.SetClickStats now' bannerID stats
                     DefaultClickStatsTTL) in
        ret (Some stats, None)
    end.

Definition GetTopBanners (now now' : Z) (limit : Z)
  : M (option (list BannerClickCount.t) * option Go.error) :=
  let* (banners, found) := cached (Cache.GetTopBanners now limit) in
  if found then ret (banners, None)
  else
    let* res :=
      backing (Repository.CallGetTopBanners limit)
              (Repository.GetTopBanners R limit) in
    match res with
    | inl err => ret (None, Some err)
    | inr banners =>
        let* _ :=
          cached_ (Cache.SetTopBanners now' limit banners
                     DefaultTopBannersTTL) in
        ret (Some banners, None)
    end.

Definition GetCacheStats (r : t) : CacheStats.t := Cache.Stats (cache r).

Definition ClearCache : M unit := cached_ Cache.Clear.

Definition InvalidateBannerCache (bannerID : Z) : M unit :=
  cached_ (Cache.InvalidateBanner bannerID).

End WithBackend.

Arguments t : clear implicits.
Arguments Build_t {D C}.
Arguments repo {D C}.
Arguments cache {D C}.
Arguments trace {D C}.

Section Warming.

(** [WarmCache] also calls [GetAllBanners] of the repository, a listing that
    no other cached method uses: it is a parameter of its own, and [trace],
    the log of the calls of [Repository.Ops], does not record it. *)
Context {D C : Type} (R : Repository.Ops D)
  (repoGetAllBanners : D -> (Go.error + list Banner.t) * D)
  {K : Cache.Ops C}.

Notation "'let*' x ':=' m 'in' k" := (bind m (fun x => k))
  (at level 10, x pattern, m at level 100, k at level 200).

(** [r.repo.GetAllBanners()] *)
Definition listing {A : Type} (f : D -> A * D) : @M D C A :=
  fun r =>
    let '(a, d) := f (repo r) in
    (a, {| repo := d; cache := cache r; trace := trace r |}).

(** [GetAllBanners] is not cached. *)
Definition GetAllBanners : @M D C (Go.error + list Banner.t) :=
  listing repoGetAllBanners.

(** The first loop of [WarmCache]; [clock i] is the instant of the [i]-th
    [SetBanner]. *)
Fixpoint warmBanners (clock : nat -> Z) (i : nat) (banners : list Banner.t)
  : @M D C unit :=
  match banners with
  | [] => ret tt
  | banner :: rest =>
      let* _ := cached_ (Cache.SetBanner (clock i) banner DefaultBannerTTL) in
      warmBanners clock (S i) rest
  end.

(** The second loop of [WarmCache]: a banner whose statistics cannot be
    retrieved is skipped. *)
Fixpoint warmClickStats (clock : nat -> Z) (i : nat)
    (banners : list Banner.t) : @M D C unit :=
  match banners with
  | [] => ret tt
  | banner :: rest =>
      let* res :=
        backing (Repository.CallGetClickStats (Banner.ID banner))
                (Repository.GetClickStats R (Banner.ID banner)) in
      let* _ :=
        match res with
        | inl _ => ret tt
        | inr stats =>
            cached_ (Cache.SetClickStats (clock i) (Banner.ID banner) stats
                       DefaultClickStatsTTL)
        end in
      warmClickStats clock (S i) rest
  end.

(** [WarmCache]; the error of the listing is wrapped by
    [fmt.Errorf("failed to warm banner cache: %w", err)]. *)
Definition WarmCache (nowBanner nowStats : nat -> Z) (nowTop : Z)
  : @M D C (option Go.error) :=
  let* res := listing repoGetAllBanners in
  match res with
  | inl err => ret (Some ("failed to warm banner cache: " +:+ err))
  | inr banners =>
      let* _ := warmBanners nowBanner 0 banners in
      let* _ := warmClickStats nowStats 0 banners in
      let* top :=
        backing (Repository.CallGetTopBanners 10)
                (Repository.GetTopBanners R 10) in
      let* _ :=
        match top with
        | inr topBanners =>
            cached_ (Cache.SetTopBanners nowTop 10 topBanners
                       DefaultTopBannersTTL)
        | inl _ => ret tt
        end in
      ret None
  end.

End Warming.

End CachedRepository.

(** ** Vocabulary of the statements and test doubles

    A repository over a database without state, whose reads and writes fail
    or succeed as its two flags say, a few payloads and a few cache states:
    the concrete inputs of the examples.  The cache keys of the four
    namespaces and the list of the cumulative counters of a statistics
    record: the words in which the properties are stated. *)

Definition stubError : Go.error := "connection refused".

Definition stubBanner (id : Z) : Banner.t :=
  {| Banner.ID := id; Banner.Name := "stub"; Banner.CreatedAt := 0;
     Banner.UpdatedAt := 0 |}.

Definition stubClick (id : Z) : Click.t :=
  {| Click.ID := id; Click.Timestamp := 0; Click.BannerID := 3;
     Click.CreatedAt := 0 |}.

Definition stubStats (bannerID : Z) : ClickStats.t :=
  {| ClickStats.BannerID := bannerID; ClickStats.TotalClicks := 0;
     ClickStats.FirstClick := 0; ClickStats.LastClick := 0 |}.

Definition stubErr (fails : bool) : option Go.error :=
  if fails then Some stubError else None.

Definition stubRes {A : Type} (fails : bool) (a : A) : Go.error + A :=
  if fails then inl stubError else inr a.

Definition stubRepo (readsFail writesFail : bool) : Repository.Ops unit :=
  {| Repository.CreateBanner := fun b d => ((b, stubErr writesFail), d);
     Repository.GetBannerByID :=
       fun id d => (stubRes readsFail (stubBanner id), d);
     Repository.UpdateBanner := fun _ d => (stubErr writesFail, d);
     Repository.DeleteBanner := fun _ d => (stubErr writesFail, d);
     Repository.CreateClick := fun c d => ((c, stubErr writesFail), d);
     Repository.GetClickByID :=
       fun id d => (stubRes readsFail (stubClick id), d);
     Repository.DeleteClick := fun _ d => (stubErr writesFail, d);
     Repository.GetClickStats :=
       fun id d => (stubRes readsFail (stubStats id), d);
     Repository.GetTopBanners := fun _ d => (stubRes readsFail [], d) |}.

(** The keys that the typed methods build, by namespace. *)
Definition bannerKey (id : Z) : string :=
  "banner:" +:+ Go.string_of_rune (Go.rune id).

Definition clickStatsKey (bannerID : Z) : string :=
  "click_stats:" +:+ Go.string_of_rune (Go.rune bannerID).

Definition bannerStatsKey (id : Z) : string :=
  "banner_stats:" +:+ Go.string_of_rune (Go.rune id).

Definition topBannersKey (limit : Z) : string :=
  "top_banners:" +:+ Go.string_of_rune (Go.rune limit).

(** The five cumulative counters of a statistics record, in the order
    hits, misses, sets, deletes, expirations. *)
Definition counters (s : CacheStats.t) : list Z :=
  [CacheStats.Hits s; CacheStats.Misses s; CacheStats.Sets s;
   CacheStats.Deletes s; CacheStats.Expirations s].

(** A cache that holds one ranked list, stored for limit 10 at instant 0. *)
Definition rankedCache : InMemoryCache.t :=
  InMemoryCache.SetTopBanners 0 10 [] DefaultTopBannersTTL NewInMemoryCache.

(** A cache that holds banner 3, its statistics and the list for limit 10,
    all stored at instant 0. *)
Definition populatedCache : InMemoryCache.t :=
  InMemoryCache.SetTopBanners 0 10 [] DefaultTopBannersTTL
    (InMemoryCache.SetClickStats 0 3 (stubStats 3) DefaultClickStatsTTL
       (InMemoryCache.SetBanner 0 (stubBanner 3) DefaultBannerTTL
          NewInMemoryCache)).

(** A cache whose entry under the key of banner 1 holds click statistics:
    only the untyped [set] can build it. *)
Definition mistypedCache : InMemoryCache.t :=
  InMemoryCache.set 0 (bannerKey 1) (PtrClickStats (stubStats 1))
    DefaultBannerTTL NewInMemoryCache.

(** A code point that [encoderune] encodes as it is: in range and not a
    surrogate. *)
Definition validRune (r : Z) : Prop :=
  0 <= r <= Go.maxRune /\ ~ (Go.surrogateMin <= r <= Go.surrogateMax).

(** A listing of the stub database: it fails, or answers with [banners]. *)
Definition stubListing (fails : bool) (banners : list Banner.t)
  : unit -> (Go.error + list Banner.t) * unit :=
  fun d => (stubRes fails banners, d).







(** The body of the loop of [cleanupExpired], by name. *)
Definition cleanupStep (clock : string -> Z) (key : string)
    (item : CacheItem.t) (acc : gmap string CacheItem.t * Z)
  : gmap string CacheItem.t * Z :=
  if CacheItem.IsExpired (clock key) item
  then (base.delete key acc.1, Go.incr64 acc.2)
  else acc.


(** * Properties *)

(** ** Go primitives *)

Lemma incr64_no_overflow (x : Z) :
  - 2 ^ 63 <= x < 2 ^ 63 - 1 -> Go.incr64 x = x + 1.
Proof.
  intros Hx. unfold Go.incr64, Go.wrap.
  replace (64 - 1) with 63 by lia.
  replace (2 ^ 64) with (2 * 2 ^ 63)
    by (change 64 with (Z.succ 63); now rewrite Z.pow_succ_r by lia).
  rewrite Z.mod_small by lia. lia.
Qed.

Lemma rune_in_range (id : Z) :
  - 2 ^ 31 <= id < 2 ^ 31 -> Go.rune id = id.
Proof.
  intros Hx. unfold Go.rune, Go.wrap.
  replace (32 - 1) with 31 by lia.
  replace (2 ^ 32) with (2 * 2 ^ 31)
    by (change 32 with (Z.succ 31); now rewrite Z.pow_succ_r by lia).
  rewrite Z.mod_small by lia. lia.
Qed.

Lemma slice_to_length (n : nat) (s : string) :
  (String.length (Go.slice_to n s) <= n)%nat.
Proof.
  unfold Go.slice_to. revert s.
  induction n as [|n IH]; intros [|a s]; simpl; try lia.
  specialize (IH s). lia.
Qed.

Example string_of_rune_ascii : Go.string_of_rune (Go.rune 65) = "A".
Proof. reflexivity. Qed.

Example string_of_rune_three_bytes :
  String.length (Go.string_of_rune (Go.rune 8364)) = 3%nat.
Proof. reflexivity. Qed.

Example string_of_rune_truncates :
  Go.string_of_rune (Go.rune (2 ^ 32 + 65)) = "A".
Proof. reflexivity. Qed.

Example string_of_rune_negative :
  Go.string_of_rune (Go.rune (-1)) = Go.encode3 Go.runeError.
Proof. reflexivity. Qed.

(** ** The store: [get], [set], [delete], [Clear] *)

Lemma Stats_counters (c : InMemoryCache.t) :
  counters (InMemoryCache.Stats c) = counters (InMemoryCache.stats c).
Proof. reflexivity. Qed.

Lemma delete_items (key : string) (c : InMemoryCache.t) :
  InMemoryCache.items (InMemoryCache.delete key c)
  = base.delete key (InMemoryCache.items c).
Proof.
  unfold InMemoryCache.delete.
  destruct (InMemoryCache.items c !! key) eqn:E; simpl; [done|].
  symmetry. by apply delete_id.
Qed.

Lemma delete_absent (key : string) (c : InMemoryCache.t) :
  InMemoryCache.items c !! key = None -> InMemoryCache.delete key c = c.
Proof. intros E. unfold InMemoryCache.delete. by rewrite E. Qed.

Lemma set_lookup (now ttl : Z) (key : string) (v : any) (c : InMemoryCache.t) :
  InMemoryCache.items (InMemoryCache.set now key v ttl c) !! key
  = Some {| CacheItem.Value := v; CacheItem.ExpiresAt := now + ttl |}.
Proof. unfold InMemoryCache.set; simpl. apply lookup_insert_eq. Qed.

Lemma get_live (now : Z) (key : string) (c : InMemoryCache.t)
    (item : CacheItem.t) :
  InMemoryCache.items c !! key = Some item ->
  now <= CacheItem.ExpiresAt item ->
  InMemoryCache.get now key c
  = ((Some (CacheItem.Value item), true),
     InMemoryCache.withStats CacheStats.incrHits c).
Proof.
  intros E Hnow. unfold InMemoryCache.get, CacheItem.IsExpired. rewrite E.
  destruct (Z.ltb_spec (CacheItem.ExpiresAt item) now); [lia|done].
Qed.

Lemma get_expired (now : Z) (key : string) (c : InMemoryCache.t)
    (item : CacheItem.t) :
  InMemoryCache.items c !! key = Some item ->
  CacheItem.ExpiresAt item < now ->
  InMemoryCache.get now key c
  = ((None, false),
     {| InMemoryCache.items := base.delete key (InMemoryCache.items c);
        InMemoryCache.stats :=
          CacheStats.incrMisses
            (CacheStats.incrExpirations (InMemoryCache.stats c)) |}).
Proof.
  intros E Hnow. unfold InMemoryCache.get, CacheItem.IsExpired. rewrite E.
  destruct (Z.ltb_spec (CacheItem.ExpiresAt item) now); [done|lia].
Qed.

Lemma get_absent (now : Z) (key : string) (c : InMemoryCache.t) :
  InMemoryCache.items c !! key = None ->
  InMemoryCache.get now key c
  = ((None, false), InMemoryCache.withStats CacheStats.incrMisses c).
Proof. intros E. unfold InMemoryCache.get. by rewrite E. Qed.

(** C8: a [get] that finds an expired entry misses, removes the entry and
    increments the expiration and the miss counter once each; a [get] of an
    absent key increments the miss counter only; a [get] of a present,
    unexpired key returns the value and increments the hit counter only.  In
    the last two cases the entries are as before. *)
Theorem get_counts_one_outcome (now : Z) (key : string) (c : InMemoryCache.t) :
  let r := InMemoryCache.get now key c in
  let s := InMemoryCache.stats c in
  (forall item,
      InMemoryCache.items c !! key = Some item ->
      CacheItem.ExpiresAt item < now ->
      r.1 = (None, false) /\
      InMemoryCache.items r.2 = base.delete key (InMemoryCache.items c) /\
      InMemoryCache.items r.2 !! key = None /\
      counters (InMemoryCache.stats r.2)
      = [CacheStats.Hits s; Go.incr64 (CacheStats.Misses s); CacheStats.Sets s;
         CacheStats.Deletes s; Go.incr64 (CacheStats.Expirations s)]) /\
  (InMemoryCache.items c !! key = None ->
      r.1 = (None, false) /\
      InMemoryCache.items r.2 = InMemoryCache.items c /\
      counters (InMemoryCache.stats r.2)
      = [CacheStats.Hits s; Go.incr64 (CacheStats.Misses s); CacheStats.Sets s;
         CacheStats.Deletes s; CacheStats.Expirations s]) /\
  (forall item,
      InMemoryCache.items c !! key = Some item ->
      now <= CacheItem.ExpiresAt item ->
      r.1 = (Some (CacheItem.Value item), true) /\
      InMemoryCache.items r.2 = InMemoryCache.items c /\
      counters (InMemoryCache.stats r.2)
      = [Go.incr64 (CacheStats.Hits s); CacheStats.Misses s; CacheStats.Sets s;
         CacheStats.Deletes s; CacheStats.Expirations s]).
Proof.
  cbv zeta. split; [|split].
  - intros item E Hnow. rewrite (get_expired _ _ _ _ E Hnow). simpl.
    repeat split. apply lookup_delete_eq.
  - intros E. rewrite (get_absent _ _ _ E). by simpl.
  - intros item E Hnow. rewrite (get_live _ _ _ _ E Hnow). by simpl.
Qed.

(** The three outcomes of C8 on a cache that holds banner 3 since instant 0
    with the default TTL: expired at the instant [DefaultBannerTTL + 1],
    absent for banner 4, live at instant 1. *)
Lemma get_counts_one_outcome_witness :
  (InMemoryCache.get (DefaultBannerTTL + 1) (bannerKey 3) populatedCache).1
  = (None, false) /\
  counters (InMemoryCache.stats
              (InMemoryCache.get (DefaultBannerTTL + 1) (bannerKey 3)
                 populatedCache).2)
  = [0; 1; 3; 0; 1] /\
  counters (InMemoryCache.stats
              (InMemoryCache.get 1 (bannerKey 4) populatedCache).2)
  = [0; 1; 3; 0; 0] /\
  (InMemoryCache.get 1 (bannerKey 3) populatedCache).1
  = (Some (PtrBanner (stubBanner 3)), true) /\
  counters (InMemoryCache.stats
              (InMemoryCache.get 1 (bannerKey 3) populatedCache).2)
  = [1; 0; 3; 0; 0].
Proof.
  pose proof (get_counts_one_outcome (DefaultBannerTTL + 1) (bannerKey 3)
                populatedCache) as (Hexp & _ & _).
  pose proof (get_counts_one_outcome 1 (bannerKey 4) populatedCache)
    as (_ & Habs & _).
  pose proof (get_counts_one_outcome 1 (bannerKey 3) populatedCache)
    as (_ & _ & Hlive).
  destruct (Hexp {| CacheItem.Value := PtrBanner (stubBanner 3);
                    CacheItem.ExpiresAt := DefaultBannerTTL |})
    as (H1 & _ & _ & H2); [reflexivity | vm_compute; reflexivity |].
  destruct Habs as (_ & _ & H3); [reflexivity|].
  destruct (Hlive {| CacheItem.Value := PtrBanner (stubBanner 3);
                     CacheItem.ExpiresAt := DefaultBannerTTL |})
    as (H4 & _ & H5); [reflexivity | vm_compute; discriminate |].
  repeat split; assumption.
Defined.

(** C9: [delete] is idempotent.  A second [delete] of the same key changes
    nothing, entries and counters alike; a [delete] of an absent key changes
    nothing; a [delete] of a present key removes it and increments the
    delete counter, and no other counter, once. *)
Theorem delete_idempotent (key : string) (c : InMemoryCache.t) :
  InMemoryCache.delete key (InMemoryCache.delete key c)
  = InMemoryCache.delete key c /\
  (InMemoryCache.items c !! key = None -> InMemoryCache.delete key c = c) /\
  (is_Some (InMemoryCache.items c !! key) ->
     InMemoryCache.items (InMemoryCache.delete key c) !! key = None /\
     (forall k, k <> key ->
        InMemoryCache.items (InMemoryCache.delete key c) !! k
        = InMemoryCache.items c !! k) /\
     counters (InMemoryCache.stats (InMemoryCache.delete key c))
     = [CacheStats.Hits (InMemoryCache.stats c);
        CacheStats.Misses (InMemoryCache.stats c);
        CacheStats.Sets (InMemoryCache.stats c);
        Go.incr64 (CacheStats.Deletes (InMemoryCache.stats c));
        CacheStats.Expirations (InMemoryCache.stats c)]).
Proof.
  split; [|split].
  - apply delete_absent. rewrite delete_items. apply lookup_delete_eq.
  - apply delete_absent.
  - intros [item E]. rewrite delete_items. split; [apply lookup_delete_eq|].
    split; [by intros k Hk; apply lookup_delete_ne|].
    unfold InMemoryCache.delete. by rewrite E.
Qed.

(** C9 on the cache that holds banner 3: the first [delete] counts, the
    second does not, and a [delete] of the absent banner 4 does nothing. *)
Lemma delete_idempotent_witness :
  InMemoryCache.delete (bannerKey 4) populatedCache = populatedCache /\
  InMemoryCache.items (InMemoryCache.delete (bannerKey 3) populatedCache)
    !! bannerKey 3 = None /\
  counters (InMemoryCache.stats
              (InMemoryCache.delete (bannerKey 3) populatedCache))
  = [0; 0; 3; 1; 0] /\
  counters (InMemoryCache.stats
              (InMemoryCache.delete (bannerKey 3)
                 (InMemoryCache.delete (bannerKey 3) populatedCache)))
  = [0; 0; 3; 1; 0].
Proof.
  pose proof (delete_idempotent (bannerKey 4) populatedCache) as (_ & Habs & _).
  pose proof (delete_idempotent (bannerKey 3) populatedCache)
    as (Htwice & _ & Hpres).
  destruct Hpres as (H1 & _ & H2); [eexists; reflexivity|].
  split; [apply Habs; reflexivity|].
  split; [exact H1|]. split; [exact H2|].
  rewrite Htwice. exact H2.
Defined.

(** C6: after [Clear] the size is 0, also in [Stats], and the five
    cumulative counters that [Stats] reports are those from before. *)
Theorem Clear_keeps_counters (c : InMemoryCache.t) :
  InMemoryCache.Size (InMemoryCache.Clear c) = 0 /\
  CacheStats.Size (InMemoryCache.Stats (InMemoryCache.Clear c)) = 0 /\
  counters (InMemoryCache.Stats (InMemoryCache.Clear c))
  = counters (InMemoryCache.Stats c) /\
  InMemoryCache.items (InMemoryCache.Clear c) = ∅.
Proof.
  unfold InMemoryCache.Size, InMemoryCache.Stats, InMemoryCache.Clear; simpl.
  by rewrite map_size_empty.
Qed.

Example Clear_populatedCache :
  InMemoryCache.Size populatedCache = 3 /\
  counters (InMemoryCache.Stats (InMemoryCache.Clear populatedCache))
  = [0; 0; 3; 0; 0].
Proof. split; reflexivity. Qed.

(** C4, as the code has it: a value set at instant [s] with a TTL [t > 0] is
    returned by [get] at every instant up to and including [s + t], and is a
    miss at every instant after [s + t].  [IsExpired] asks whether the
    current time is after the expiration instant, so the instant [s + t]
    itself still hits. *)
Theorem set_then_get_within_ttl
    (k : string) (v : any) (t s now : Z) (c : InMemoryCache.t) :
  0 < t ->
  (now <= s + t ->
     (InMemoryCache.get now k (InMemoryCache.set s k v t c)).1
     = (Some v, true)) /\
  (s + t < now ->
     (InMemoryCache.get now k (InMemoryCache.set s k v t c)).1
     = (None, false)).
Proof.
  intros _. pose proof (set_lookup s t k v c) as E.
  split; intros Hnow.
  - rewrite (get_live _ _ _ _ E); [done | simpl; lia].
  - rewrite (get_expired _ _ _ _ E); [done | simpl; lia].
Qed.

Lemma set_then_get_within_ttl_witness :
  (InMemoryCache.get 5 (bannerKey 7)
     (InMemoryCache.set 0 (bannerKey 7) (PtrBanner (stubBanner 7)) 5
        NewInMemoryCache)).1
  = (Some (PtrBanner (stubBanner 7)), true) /\
  (InMemoryCache.get 6 (bannerKey 7)
     (InMemoryCache.set 0 (bannerKey 7) (PtrBanner (stubBanner 7)) 5
        NewInMemoryCache)).1
  = (None, false).
Proof.
  split.
  - apply (set_then_get_within_ttl (bannerKey 7) (PtrBanner (stubBanner 7))
             5 0 5 NewInMemoryCache); lia.
  - apply (set_then_get_within_ttl (bannerKey 7) (PtrBanner (stubBanner 7))
             5 0 6 NewInMemoryCache); lia.
Defined.

(** C4 as stated fails at the expiration instant: a value set at instant 0
    with TTL 5 is still found at instant 5, which is not strictly before
    [0 + 5]. *)
Lemma get_at_expiration_instant_hits :
  ~ (forall (k : string) (v : any) (t s now : Z) (c : InMemoryCache.t),
       0 < t ->
       ((InMemoryCache.get now k (InMemoryCache.set s k v t c)).1.2 = true
        <-> now < s + t)).
Proof.
  intros H.
  specialize (H (bannerKey 7) (PtrBanner (stubBanner 7)) 5 0 5
                NewInMemoryCache ltac:(lia)).
  assert (5 < 0 + 5) as Habs by (apply H; reflexivity). lia.
Qed.

(** ** Cache keys *)

(** The four namespaces never share a key: two prefixes differ at some
    byte before either of them ends. *)
Lemma namespaces_disjoint (x y : Z) :
  bannerKey x <> clickStatsKey y /\
  bannerKey x <> bannerStatsKey y /\
  bannerKey x <> topBannersKey y /\
  clickStatsKey x <> bannerStatsKey y /\
  clickStatsKey x <> topBannersKey y /\
  bannerStatsKey x <> topBannersKey y.
Proof.
  unfold bannerKey, clickStatsKey, bannerStatsKey, topBannersKey; simpl.
  repeat split; discriminate.
Qed.

(** Ids from 0 to 127 are encoded as the byte of that value, so on this
    range a namespace has one key per id. *)
Lemma string_of_rune_ascii_inj (x y : Z) :
  0 <= x <= 127 -> 0 <= y <= 127 ->
  Go.string_of_rune (Go.rune x) = Go.string_of_rune (Go.rune y) -> x = y.
Proof.
  intros Hx Hy. rewrite !rune_in_range by lia.
  unfold Go.string_of_rune, Go.encoderune; cbv zeta.
  rewrite !Z.mod_small by lia.
  destruct (Z.leb_spec x 127), (Z.leb_spec y 127); try lia.
  unfold Go.str1, Go.byte. intros [= E].
  apply (f_equal N_of_ascii) in E. rewrite !N_ascii_embedding in E.
  - assert (Hland : forall z, 0 <= z <= 127 -> Z.land z 255 = z).
    { intros z Hz. change 255 with (Z.ones 8). rewrite Z.land_ones by lia.
      apply Z.mod_small. lia. }
    rewrite !Hland in E by lia. lia.
  - assert (Z.land y 255 <= 255).
    { change 255 with (Z.ones 8) at 1. rewrite Z.land_ones by lia.
      pose proof (Z.mod_pos_bound y (2 ^ 8)). lia. }
    lia.
  - assert (Z.land x 255 <= 255).
    { change 255 with (Z.ones 8) at 1. rewrite Z.land_ones by lia.
      pose proof (Z.mod_pos_bound x (2 ^ 8)). lia. }
    lia.
Qed.

(** C3, where the code departs from it: the conversion [string(rune(id))]
    replaces every surrogate code point by the replacement character, so the
    distinct ids 55296 and 55297 get one key in each of the four namespaces,
    and a banner set under id 55296 is returned by [GetBanner] for id 55297. *)
Theorem surrogate_ids_share_a_key :
  bannerKey 55296 = bannerKey 55297 /\
  clickStatsKey 55296 = clickStatsKey 55297 /\
  bannerStatsKey 55296 = bannerStatsKey 55297 /\
  topBannersKey 55296 = topBannersKey 55297 /\
  (InMemoryCache.GetBanner 1 55297
     (InMemoryCache.SetBanner 0 (stubBanner 55296) DefaultBannerTTL
        NewInMemoryCache)).1
  = (Some (stubBanner 55296), true).
Proof. repeat split; reflexivity. Qed.

(** ** [InvalidateTopBanners] *)

(** The guard of the loop compares the first 11 bytes of the key with the
    12 bytes of the prefix: it holds for no key. *)
Lemma InvalidateTopBanners_step_id (key : string) (c : InMemoryCache.t) :
  InMemoryCache.InvalidateTopBanners_step key c = c.
Proof.
  unfold InMemoryCache.InvalidateTopBanners_step.
  destruct (String.eqb (Go.slice_to 11 key) "top_banners:") eqn:E.
  - apply String.eqb_eq in E.
    pose proof (slice_to_length 11 key) as Hlen.
    rewrite E in Hlen. simpl in Hlen. lia.
  - by rewrite andb_false_r.
Qed.

Lemma InvalidateTopBanners_id (c : InMemoryCache.t) :
  InMemoryCache.InvalidateTopBanners c = c.
Proof.
  unfold InMemoryCache.InvalidateTopBanners.
  apply (map_fold_weak_ind (fun r _ => r = c)); [done|].
  intros key item m r _ ->. apply InvalidateTopBanners_step_id.
Qed.

Lemma InvalidateBanner_items (id : Z) (c : InMemoryCache.t) :
  InMemoryCache.items (InMemoryCache.InvalidateBanner id c)
  = base.delete (bannerStatsKey id)
      (base.delete (clickStatsKey id)
         (base.delete (bannerKey id) (InMemoryCache.items c))).
Proof.
  unfold InMemoryCache.InvalidateBanner. rewrite InvalidateTopBanners_id.
  unfold InMemoryCache.InvalidateBannerWithStats,
    InMemoryCache.InvalidateClickStats, InMemoryCache.DeleteBanner.
  by rewrite !delete_items.
Qed.

(** The part of the cascade that the code performs: the three entries of
    the id are evicted. *)
Lemma InvalidateBanner_evicts_own_entries (id : Z) (c : InMemoryCache.t) :
  let c' := InMemoryCache.InvalidateBanner id c in
  InMemoryCache.items c' !! bannerKey id = None /\
  InMemoryCache.items c' !! clickStatsKey id = None /\
  InMemoryCache.items c' !! bannerStatsKey id = None.
Proof.
  cbv zeta. rewrite InvalidateBanner_items.
  destruct (namespaces_disjoint id id) as (H1 & H2 & _ & H3 & _).
  repeat split.
  - rewrite lookup_delete_ne by congruence.
    rewrite lookup_delete_ne by congruence. apply lookup_delete_eq.
  - rewrite lookup_delete_ne by congruence. apply lookup_delete_eq.
  - apply lookup_delete_eq.
Qed.

Lemma InvalidateBanner_keeps_top (id limit : Z) (c : InMemoryCache.t) :
  InMemoryCache.items (InMemoryCache.InvalidateBanner id c) !! topBannersKey limit
  = InMemoryCache.items c !! topBannersKey limit.
Proof.
  rewrite InvalidateBanner_items.
  destruct (namespaces_disjoint id limit) as (_ & _ & H1 & _ & H2 & H3).
  by rewrite !lookup_delete_ne by congruence.
Qed.

(** ** Typed reads *)

Lemma GetTopBanners_hit (now limit : Z) (c : InMemoryCache.t)
    (item : CacheItem.t) (banners : list BannerClickCount.t) :
  InMemoryCache.items c !! topBannersKey limit = Some item ->
  CacheItem.Value item = SliceBannerClickCount banners ->
  now <= CacheItem.ExpiresAt item ->
  InMemoryCache.GetTopBanners now limit c
  = ((Some banners, true), InMemoryCache.withStats CacheStats.incrHits c).
Proof.
  intros E Hv Hnow. unfold InMemoryCache.GetTopBanners.
  fold (topBannersKey limit). rewrite (get_live _ _ _ _ E Hnow); simpl.
  by rewrite Hv.
Qed.

Lemma GetBanner_hit (now id : Z) (c : InMemoryCache.t)
    (item : CacheItem.t) (banner : Banner.t) :
  InMemoryCache.items c !! bannerKey id = Some item ->
  CacheItem.Value item = PtrBanner banner ->
  now <= CacheItem.ExpiresAt item ->
  InMemoryCache.GetBanner now id c
  = ((Some banner, true), InMemoryCache.withStats CacheStats.incrHits c).
Proof.
  intros E Hv Hnow. unfold InMemoryCache.GetBanner.
  fold (bannerKey id). rewrite (get_live _ _ _ _ E Hnow); simpl.
  by rewrite Hv.
Qed.

Lemma GetBanner_absent (now id : Z) (c : InMemoryCache.t) :
  InMemoryCache.items c !! bannerKey id = None ->
  InMemoryCache.GetBanner now id c
  = ((None, false), InMemoryCache.withStats CacheStats.incrMisses c).
Proof.
  intros E. unfold InMemoryCache.GetBanner.
  fold (bannerKey id). by rewrite (get_absent _ _ _ E).
Qed.

(** ** The cached repository over the in-memory cache *)

Section OverInMemoryCache.

Context {D : Type} (R : Repository.Ops D).

Implicit Types r : CachedRepository.t D InMemoryCache.t.

(** A ranked list that is cached and unexpired is served without a call to
    the backing store. *)
Lemma GetTopBanners_served_from_cache r (now now' limit : Z)
    (item : CacheItem.t) (banners : list BannerClickCount.t) :
  InMemoryCache.items (CachedRepository.cache r) !! topBannersKey limit
  = Some item ->
  CacheItem.Value item = SliceBannerClickCount banners ->
  now <= CacheItem.ExpiresAt item ->
  CachedRepository.GetTopBanners R now now' limit r
  = ((Some banners, None),
     {| CachedRepository.repo := CachedRepository.repo r;
        CachedRepository.cache :=
          InMemoryCache.withStats CacheStats.incrHits (CachedRepository.cache r);
        CachedRepository.trace := CachedRepository.trace r |}).
Proof.
  intros E Hv Hnow.
  unfold CachedRepository.GetTopBanners, CachedRepository.bind,
    CachedRepository.cached; simpl.
  by rewrite (GetTopBanners_hit _ _ _ _ _ E Hv Hnow).
Qed.

(** C1, where the code departs from it: [InvalidateBanner] leaves every
    ranked-list entry in the cache.  After the manual invalidation of an id,
    or after a successful [DeleteBanner], a ranked list that was cached and
    is unexpired is still there, and [GetTopBanners] for its limit returns
    it from the cache: the trace of backing-store calls gets no new call. *)
Theorem InvalidateBanner_keeps_ranked_lists r (id limit now now' : Z)
    (item : CacheItem.t) (banners : list BannerClickCount.t) :
  InMemoryCache.items (CachedRepository.cache r) !! topBannersKey limit
  = Some item ->
  CacheItem.Value item = SliceBannerClickCount banners ->
  now <= CacheItem.ExpiresAt item ->
  let r1 := (CachedRepository.InvalidateBannerCache id r).2 in
  (InMemoryCache.items (CachedRepository.cache r1) !! topBannersKey limit
   = Some item /\
   (CachedRepository.GetTopBanners R now now' limit r1).1
   = (Some banners, None) /\
   CachedRepository.trace (CachedRepository.GetTopBanners R now now' limit r1).2
   = CachedRepository.trace r) /\
  (forall d',
     Repository.DeleteBanner R id (CachedRepository.repo r) = (None, d') ->
     let r2 := (CachedRepository.DeleteBanner R id r).2 in
     InMemoryCache.items (CachedRepository.cache r2) !! topBannersKey limit
     = Some item /\
     (CachedRepository.GetTopBanners R now now' limit r2).1
     = (Some banners, None) /\
     CachedRepository.trace (CachedRepository.GetTopBanners R now now' limit r2).2
     = (CachedRepository.trace r ++ [Repository.CallDeleteBanner id])%list).
Proof.
  intros E Hv Hnow. cbv zeta. split.
  - assert (InMemoryCache.items
              (CachedRepository.cache
                 (CachedRepository.InvalidateBannerCache id r).2)
            !! topBannersKey limit = Some item) as E1.
    { simpl. by rewrite InvalidateBanner_keeps_top. }
    split; [exact E1|].
    by rewrite (GetTopBanners_served_from_cache _ _ _ _ _ _ E1 Hv Hnow).
  - intros d' Hdel.
    assert (CachedRepository.DeleteBanner R id r
            = (None,
               {| CachedRepository.repo := d';
                  CachedRepository.cache :=
                    InMemoryCache.InvalidateBanner id (CachedRepository.cache r);
                  CachedRepository.trace :=
                    (CachedRepository.trace r
                       ++ [Repository.CallDeleteBanner id])%list |}))
      as ->.
    { unfold CachedRepository.DeleteBanner, CachedRepository.bind,
        CachedRepository.backing. by rewrite Hdel. }
    simpl.
    assert (InMemoryCache.items
              (InMemoryCache.InvalidateBanner id (CachedRepository.cache r))
            !! topBannersKey limit = Some item) as E1.
    { by rewrite InvalidateBanner_keeps_top. }
    split; [exact E1|].
    by erewrite GetTopBanners_served_from_cache.
Qed.

End OverInMemoryCache.

(** C1 at a concrete input: the list for limit 10 is cached at instant 0,
    banner 1 is invalidated, and at instant 1 the list is served from the
    cache although the stub database is there to answer. *)
Lemma InvalidateBanner_keeps_ranked_lists_witness :
  (CachedRepository.GetTopBanners (stubRepo false false) 1 1 10
     (CachedRepository.InvalidateBannerCache 1
        {| CachedRepository.repo := tt;
           CachedRepository.cache := rankedCache;
           CachedRepository.trace := [] |}).2).1
  = (Some [], None) /\
  CachedRepository.trace
    (CachedRepository.GetTopBanners (stubRepo false false) 1 1 10
       (CachedRepository.InvalidateBannerCache 1
          {| CachedRepository.repo := tt;
             CachedRepository.cache := rankedCache;
             CachedRepository.trace := [] |}).2).2
  = [].
Proof.
  pose proof (InvalidateBanner_keeps_ranked_lists (stubRepo false false)
                {| CachedRepository.repo := tt;
                   CachedRepository.cache := rankedCache;
                   CachedRepository.trace := [] |}
                1 10 1 1
                {| CacheItem.Value := SliceBannerClickCount [];
                   CacheItem.ExpiresAt := 0 + DefaultTopBannersTTL |} [])
    as H.
  destruct H as ((_ & H1 & H2) & _);
    [reflexivity | reflexivity | vm_compute; discriminate |].
  split; assumption.
Defined.

Lemma invalidate_click_caches_items (owner : Z) (c : InMemoryCache.t) :
  InMemoryCache.items
    (InMemoryCache.InvalidateBannerWithStats owner
       (InMemoryCache.InvalidateClickStats owner c))
  = base.delete (bannerStatsKey owner)
      (base.delete (clickStatsKey owner) (InMemoryCache.items c)).
Proof.
  unfold InMemoryCache.InvalidateBannerWithStats,
    InMemoryCache.InvalidateClickStats.
  by rewrite !delete_items.
Qed.

Section Writes.

Context {D : Type} (R : Repository.Ops D).

Implicit Types r : CachedRepository.t D InMemoryCache.t.

Lemma CreateClick_ok r (click click' : Click.t) (d' : D) :
  Repository.CreateClick R click (CachedRepository.repo r)
  = ((click', None), d') ->
  CachedRepository.CreateClick R click r
  = ((click', None),
     {| CachedRepository.repo := d';
        CachedRepository.cache :=
          InMemoryCache.InvalidateBannerWithStats (Click.BannerID click')
            (InMemoryCache.InvalidateClickStats (Click.BannerID click')
               (CachedRepository.cache r));
        CachedRepository.trace :=
          (CachedRepository.trace r ++ [Repository.CallCreateClick click])%list |}).
Proof.
  intros Hok.
  unfold CachedRepository.CreateClick, CachedRepository.bind,
    CachedRepository.backing.
  rewrite Hok; simpl. unfold CachedRepository.cached_; simpl.
  by rewrite InvalidateTopBanners_id.
Qed.

Lemma UpdateBanner_ok r (now : Z) (banner : Banner.t) (d' : D) :
  Repository.UpdateBanner R banner (CachedRepository.repo r) = (None, d') ->
  CachedRepository.UpdateBanner R now banner r
  = (None,
     {| CachedRepository.repo := d';
        CachedRepository.cache :=
          InMemoryCache.InvalidateBanner (Banner.ID banner)
            (InMemoryCache.SetBanner now banner DefaultBannerTTL
               (CachedRepository.cache r));
        CachedRepository.trace :=
          (CachedRepository.trace r ++ [Repository.CallUpdateBanner banner])%list |}).
Proof.
  intros Hok.
  unfold CachedRepository.UpdateBanner, CachedRepository.bind,
    CachedRepository.backing.
  by rewrite Hok.
Qed.

(** C7, where the code departs from it: a successful [CreateClick] evicts
    the statistics and the banner-with-statistics entry of the owning banner
    and leaves every banner entry as it was, but it also leaves every
    ranked-list entry: a list that was cached and is unexpired is returned by
    the next [GetTopBanners] from the cache, the only backing-store call
    being the [CreateClick] itself. *)
Theorem CreateClick_keeps_ranked_lists r (click click' : Click.t) (d' : D)
    (limit now now' : Z) (item : CacheItem.t)
    (banners : list BannerClickCount.t) :
  Repository.CreateClick R click (CachedRepository.repo r)
  = ((click', None), d') ->
  InMemoryCache.items (CachedRepository.cache r) !! topBannersKey limit
  = Some item ->
  CacheItem.Value item = SliceBannerClickCount banners ->
  now <= CacheItem.ExpiresAt item ->
  let r1 := (CachedRepository.CreateClick R click r).2 in
  let owner := Click.BannerID click' in
  InMemoryCache.items (CachedRepository.cache r1) !! clickStatsKey owner = None /\
  InMemoryCache.items (CachedRepository.cache r1) !! bannerStatsKey owner = None /\
  (forall id,
     InMemoryCache.items (CachedRepository.cache r1) !! bannerKey id
     = InMemoryCache.items (CachedRepository.cache r) !! bannerKey id) /\
  InMemoryCache.items (CachedRepository.cache r1) !! topBannersKey limit
  = Some item /\
  (CachedRepository.GetTopBanners R now now' limit r1).1
  = (Some banners, None) /\
  CachedRepository.trace (CachedRepository.GetTopBanners R now now' limit r1).2
  = (CachedRepository.trace r ++ [Repository.CallCreateClick click])%list.
Proof.
  intros Hok E Hv Hnow. cbv zeta. rewrite (CreateClick_ok _ _ _ _ Hok); simpl.
  set (owner := Click.BannerID click').
  pose proof (invalidate_click_caches_items owner (CachedRepository.cache r))
    as Hitems.
  assert (Htop :
    InMemoryCache.items
      (InMemoryCache.InvalidateBannerWithStats owner
         (InMemoryCache.InvalidateClickStats owner (CachedRepository.cache r)))
    !! topBannersKey limit = Some item).
  { rewrite Hitems.
    destruct (namespaces_disjoint owner limit) as (_ & _ & _ & _ & H2 & H3).
    by rewrite !lookup_delete_ne by congruence. }
  split; [|split; [|split; [|split; [exact Htop|]]]].
  - rewrite Hitems.
    destruct (namespaces_disjoint owner owner) as (_ & _ & _ & H1 & _).
    rewrite lookup_delete_ne by congruence. apply lookup_delete_eq.
  - rewrite Hitems. apply lookup_delete_eq.
  - intros id. rewrite Hitems.
    destruct (namespaces_disjoint id owner) as (H1 & H2 & _).
    by rewrite !lookup_delete_ne by congruence.
  - by erewrite GetTopBanners_served_from_cache.
Qed.

(** The frame half of C7 holds on the code: a banner that is cached and
    unexpired is, after a successful [CreateClick], returned by
    [GetBannerByID] from the cache. *)
Lemma CreateClick_keeps_banners_served r (click click' : Click.t) (d' : D)
    (id now now' : Z) (item : CacheItem.t) (banner : Banner.t) :
  Repository.CreateClick R click (CachedRepository.repo r)
  = ((click', None), d') ->
  InMemoryCache.items (CachedRepository.cache r) !! bannerKey id = Some item ->
  CacheItem.Value item = PtrBanner banner ->
  now <= CacheItem.ExpiresAt item ->
  let r1 := (CachedRepository.CreateClick R click r).2 in
  (CachedRepository.GetBannerByID R now now' id r1).1 = (Some banner, None) /\
  CachedRepository.trace (CachedRepository.GetBannerByID R now now' id r1).2
  = (CachedRepository.trace r ++ [Repository.CallCreateClick click])%list.
Proof.
  intros Hok E Hv Hnow. cbv zeta. rewrite (CreateClick_ok _ _ _ _ Hok); simpl.
  set (owner := Click.BannerID click').
  assert (E1 :
    InMemoryCache.items
      (InMemoryCache.InvalidateBannerWithStats owner
         (InMemoryCache.InvalidateClickStats owner (CachedRepository.cache r)))
    !! bannerKey id = Some item).
  { rewrite invalidate_click_caches_items.
    destruct (namespaces_disjoint id owner) as (H1 & H2 & _).
    by rewrite !lookup_delete_ne by congruence. }
  unfold CachedRepository.GetBannerByID, CachedRepository.bind,
    CachedRepository.cached; simpl.
  by rewrite (GetBanner_hit _ _ _ _ _ E1 Hv Hnow).
Qed.

(** C2, where the code departs from it: a successful [UpdateBanner] stores
    the updated banner and then calls [InvalidateBanner], whose first step
    deletes the entry just stored.  Afterwards the cache has no entry for the
    banner, and the next [GetBannerByID] reaches the backing store. *)
Theorem UpdateBanner_drops_banner_entry r (now now1 now2 : Z)
    (banner : Banner.t) (d' : D) :
  Repository.UpdateBanner R banner (CachedRepository.repo r) = (None, d') ->
  let r1 := (CachedRepository.UpdateBanner R now banner r).2 in
  (CachedRepository.UpdateBanner R now banner r).1 = None /\
  InMemoryCache.items (CachedRepository.cache r1) !! bannerKey (Banner.ID banner)
  = None /\
  CachedRepository.trace
    (CachedRepository.GetBannerByID R now1 now2 (Banner.ID banner) r1).2
  = (CachedRepository.trace r
       ++ [Repository.CallUpdateBanner banner;
           Repository.CallGetBannerByID (Banner.ID banner)])%list.
Proof.
  intros Hok. cbv zeta. rewrite (UpdateBanner_ok _ _ _ _ Hok); simpl.
  pose proof (InvalidateBanner_evicts_own_entries (Banner.ID banner)
                (InMemoryCache.SetBanner now banner DefaultBannerTTL
                   (CachedRepository.cache r))) as (Hgone & _).
  split; [done|]. split; [exact Hgone|].
  unfold CachedRepository.GetBannerByID, CachedRepository.bind,
    CachedRepository.cached; simpl.
  rewrite (GetBanner_absent _ _ _ Hgone); simpl.
  unfold CachedRepository.backing; simpl.
  destruct (Repository.GetBannerByID R (Banner.ID banner) d') as [[e|b] d''];
    simpl; by rewrite <- app_assoc.
Qed.

End Writes.

(** C7 at a concrete input: banner 3, its statistics and the list for limit
    10 are cached; a click on banner 3 is recorded; the statistics are gone,
    the list is still served from the cache. *)
Lemma CreateClick_keeps_ranked_lists_witness :
  InMemoryCache.items
    (CachedRepository.cache
       (CachedRepository.CreateClick (stubRepo false false) (stubClick 1)
          {| CachedRepository.repo := tt;
             CachedRepository.cache := populatedCache;
             CachedRepository.trace := [] |}).2)
    !! clickStatsKey 3 = None /\
  (CachedRepository.GetTopBanners (stubRepo false false) 1 1 10
     (CachedRepository.CreateClick (stubRepo false false) (stubClick 1)
        {| CachedRepository.repo := tt;
           CachedRepository.cache := populatedCache;
           CachedRepository.trace := [] |}).2).1
  = (Some [], None).
Proof.
  pose proof (CreateClick_keeps_ranked_lists (stubRepo false false)
                {| CachedRepository.repo := tt;
                   CachedRepository.cache := populatedCache;
                   CachedRepository.trace := [] |}
                (stubClick 1) (stubClick 1) tt 10 1 1
                {| CacheItem.Value := SliceBannerClickCount [];
                   CacheItem.ExpiresAt := 0 + DefaultTopBannersTTL |} [])
    as H.
  destruct H as (H1 & _ & _ & _ & H2 & _);
    [reflexivity | reflexivity | reflexivity | vm_compute; discriminate |].
  split; assumption.
Defined.

(** C2 at a concrete input: banner 7 is cached at instant 0 and updated at
    instant 1; the entry is gone and the read at instant 2 calls the
    database. *)
Lemma UpdateBanner_drops_banner_entry_witness :
  InMemoryCache.items
    (CachedRepository.cache
       (CachedRepository.UpdateBanner (stubRepo false false) 1 (stubBanner 7)
          {| CachedRepository.repo := tt;
             CachedRepository.cache :=
               InMemoryCache.SetBanner 0 (stubBanner 7) DefaultBannerTTL
                 NewInMemoryCache;
             CachedRepository.trace := [] |}).2)
    !! bannerKey 7 = None /\
  CachedRepository.trace
    (CachedRepository.GetBannerByID (stubRepo false false) 2 2 7
       (CachedRepository.UpdateBanner (stubRepo false false) 1 (stubBanner 7)
          {| CachedRepository.repo := tt;
             CachedRepository.cache :=
               InMemoryCache.SetBanner 0 (stubBanner 7) DefaultBannerTTL
                 NewInMemoryCache;
             CachedRepository.trace := [] |}).2).2
  = [Repository.CallUpdateBanner (stubBanner 7);
     Repository.CallGetBannerByID 7].
Proof.
  pose proof (UpdateBanner_drops_banner_entry (stubRepo false false)
                {| CachedRepository.repo := tt;
                   CachedRepository.cache :=
                     InMemoryCache.SetBanner 0 (stubBanner 7) DefaultBannerTTL
                       NewInMemoryCache;
                   CachedRepository.trace := [] |}
                1 2 2 (stubBanner 7) tt) as H.
  destruct H as (_ & H1 & H2); [reflexivity|].
  split; assumption.
Defined.

Section FailedWrites.

Context {D C : Type} (R : Repository.Ops D) {K : Cache.Ops C}.

(** C5: when the backing store answers a write with an error, the cached
    repository returns that error and its cache is the one from before the
    call, for any implementation of [Cache].  [DeleteClick] has two calls
    that can fail, the lookup of the click and the delete itself. *)
Theorem failed_write_leaves_cache (r : CachedRepository.t D C) (now : Z)
    (e : Go.error) :
  (forall banner banner' d',
     Repository.CreateBanner R banner (CachedRepository.repo r)
     = ((banner', Some e), d') ->
     (CachedRepository.CreateBanner R now banner r).1 = (banner', Some e) /\
     CachedRepository.cache (CachedRepository.CreateBanner R now banner r).2
     = CachedRepository.cache r) /\
  (forall banner d',
     Repository.UpdateBanner R banner (CachedRepository.repo r)
     = (Some e, d') ->
     (CachedRepository.UpdateBanner R now banner r).1 = Some e /\
     CachedRepository.cache (CachedRepository.UpdateBanner R now banner r).2
     = CachedRepository.cache r) /\
  (forall id d',
     Repository.DeleteBanner R id (CachedRepository.repo r) = (Some e, d') ->
     (CachedRepository.DeleteBanner R id r).1 = Some e /\
     CachedRepository.cache (CachedRepository.DeleteBanner R id r).2
     = CachedRepository.cache r) /\
  (forall click click' d',
     Repository.CreateClick R click (CachedRepository.repo r)
     = ((click', Some e), d') ->
     (CachedRepository.CreateClick R click r).1 = (click', Some e) /\
     CachedRepository.cache (CachedRepository.CreateClick R click r).2
     = CachedRepository.cache r) /\
  (forall id d',
     Repository.GetClickByID R id (CachedRepository.repo r) = (inl e, d') ->
     (CachedRepository.DeleteClick R id r).1 = Some e /\
     CachedRepository.cache (CachedRepository.DeleteClick R id r).2
     = CachedRepository.cache r) /\
  (forall id click d' d'',
     Repository.GetClickByID R id (CachedRepository.repo r)
     = (inr click, d') ->
     Repository.DeleteClick R id d' = (Some e, d'') ->
     (CachedRepository.DeleteClick R id r).1 = Some e /\
     CachedRepository.cache (CachedRepository.DeleteClick R id r).2
     = CachedRepository.cache r).
Proof.
  repeat split.
  all: unfold CachedRepository.CreateBanner, CachedRepository.UpdateBanner,
         CachedRepository.DeleteBanner, CachedRepository.CreateClick,
         CachedRepository.DeleteClick, CachedRepository.bind,
         CachedRepository.backing.
  all: repeat match goal with
         | H : _ = (_, _) |- _ => rewrite H; clear H; simpl
         end.
  all: reflexivity.
Qed.

End FailedWrites.

(** C5 at concrete inputs: a database whose writes fail, then one whose
    lookups fail too, in front of the populated in-memory cache. *)
Lemma failed_write_leaves_cache_witness :
  CachedRepository.cache
    (CachedRepository.UpdateBanner (stubRepo false true) 1 (stubBanner 3)
       {| CachedRepository.repo := tt;
          CachedRepository.cache := populatedCache;
          CachedRepository.trace := [] |}).2
  = populatedCache /\
  (CachedRepository.DeleteClick (stubRepo false true) 9
     {| CachedRepository.repo := tt;
        CachedRepository.cache := populatedCache;
        CachedRepository.trace := [] |})
  = (Some stubError,
     {| CachedRepository.repo := tt;
        CachedRepository.cache := populatedCache;
        CachedRepository.trace :=
          [Repository.CallGetClickByID 9; Repository.CallDeleteClick 9] |}) /\
  CachedRepository.cache
    (CachedRepository.DeleteClick (stubRepo true true) 9
       {| CachedRepository.repo := tt;
          CachedRepository.cache := populatedCache;
          CachedRepository.trace := [] |}).2
  = populatedCache.
Proof.
  pose proof (failed_write_leaves_cache (stubRepo false true)
                {| CachedRepository.repo := tt;
                   CachedRepository.cache := populatedCache;
                   CachedRepository.trace := [] |} 1 stubError)
    as (_ & Hupd & _ & _ & _ & Hdel).
  pose proof (failed_write_leaves_cache (stubRepo true true)
                {| CachedRepository.repo := tt;
                   CachedRepository.cache := populatedCache;
                   CachedRepository.trace := [] |} 1 stubError)
    as (_ & _ & _ & _ & Hget & _).
  destruct (Hupd (stubBanner 3) tt) as (_ & H1); [reflexivity|].
  destruct (Hdel 9 (stubClick 9) tt tt) as (_ & H2); [reflexivity..|].
  destruct (Hget 9 tt) as (_ & H3); [reflexivity|].
  split; [exact H1|]. split; [reflexivity|exact H3].
Defined.

Section MistypedEntries.

Context {D : Type} (R : Repository.Ops D).

(** C10: on an unexpired entry whose value fails the type assertion, each of
    the four typed reads answers [found = false], leaves the entries as they
    are, and increments the hit counter and no other counter.
    [GetBannerByID] then asks the backing store, and a banner that the store
    returns for that id replaces the entry. *)
Theorem mistyped_entry_is_counted_as_hit
    (r : CachedRepository.t D InMemoryCache.t) (now now' id : Z)
    (item : CacheItem.t) :
  now <= CacheItem.ExpiresAt item ->
  let c := CachedRepository.cache r in
  let s := InMemoryCache.stats c in
  let hit :=
    [Go.incr64 (CacheStats.Hits s); CacheStats.Misses s; CacheStats.Sets s;
     CacheStats.Deletes s; CacheStats.Expirations s] in
  (InMemoryCache.items c !! bannerKey id = Some item ->
   (assert_Banner (Some (CacheItem.Value item))).2 = false ->
   ((InMemoryCache.GetBanner now id c).1 = (None, false) /\
    InMemoryCache.items (InMemoryCache.GetBanner now id c).2
    = InMemoryCache.items c /\
    counters (InMemoryCache.stats (InMemoryCache.GetBanner now id c).2) = hit) /\
   (forall b d',
      Repository.GetBannerByID R id (CachedRepository.repo r) = (inr b, d') ->
      Banner.ID b = id ->
      (CachedRepository.GetBannerByID R now now' id r).1 = (Some b, None) /\
      CachedRepository.trace (CachedRepository.GetBannerByID R now now' id r).2
      = (CachedRepository.trace r ++ [Repository.CallGetBannerByID id])%list /\
      InMemoryCache.items
        (CachedRepository.cache
           (CachedRepository.GetBannerByID R now now' id r).2)
        !! bannerKey id
      = Some {| CacheItem.Value := PtrBanner b;
                CacheItem.ExpiresAt := now' + DefaultBannerTTL |})) /\
  (InMemoryCache.items c !! clickStatsKey id = Some item ->
   (assert_ClickStats (Some (CacheItem.Value item))).2 = false ->
   (InMemoryCache.GetClickStats now id c).1 = (None, false) /\
   InMemoryCache.items (InMemoryCache.GetClickStats now id c).2
   = InMemoryCache.items c /\
   counters (InMemoryCache.stats (InMemoryCache.GetClickStats now id c).2)
   = hit) /\
  (InMemoryCache.items c !! bannerStatsKey id = Some item ->
   (assert_BannerWithStats (Some (CacheItem.Value item))).2 = false ->
   (InMemoryCache.GetBannerWithStats now id c).1 = (None, false) /\
   InMemoryCache.items (InMemoryCache.GetBannerWithStats now id c).2
   = InMemoryCache.items c /\
   counters (InMemoryCache.stats (InMemoryCache.GetBannerWithStats now id c).2)
   = hit) /\
  (InMemoryCache.items c !! topBannersKey id = Some item ->
   (assert_TopBanners (Some (CacheItem.Value item))).2 = false ->
   (InMemoryCache.GetTopBanners now id c).1 = (None, false) /\
   InMemoryCache.items (InMemoryCache.GetTopBanners now id c).2
   = InMemoryCache.items c /\
   counters (InMemoryCache.stats (InMemoryCache.GetTopBanners now id c).2)
   = hit).
Proof.
  intros Hnow. cbv zeta.
  split; [|split; [|split]]; intros E Hbad.
  - assert (InMemoryCache.GetBanner now id (CachedRepository.cache r)
            = ((None, false),
               InMemoryCache.withStats CacheStats.incrHits
                 (CachedRepository.cache r))) as Hget.
    { unfold InMemoryCache.GetBanner. fold (bannerKey id).
      rewrite (get_live _ _ _ _ E Hnow); simpl.
      destruct (CacheItem.Value item); simpl in Hbad; done. }
    split; [by rewrite Hget|].
    intros b d' Hrepo Hid.
    unfold CachedRepository.GetBannerByID, CachedRepository.bind,
      CachedRepository.cached; simpl.
    rewrite Hget; simpl.
    unfold CachedRepository.backing; simpl. rewrite Hrepo; simpl.
    repeat split.
    unfold InMemoryCache.SetBanner. rewrite Hid. fold (bannerKey id).
    apply set_lookup.
  - unfold InMemoryCache.GetClickStats. fold (clickStatsKey id).
    rewrite (get_live _ _ _ _ E Hnow); simpl.
    destruct (CacheItem.Value item); simpl in Hbad; done.
  - unfold InMemoryCache.GetBannerWithStats. fold (bannerStatsKey id).
    rewrite (get_live _ _ _ _ E Hnow); simpl.
    destruct (CacheItem.Value item); simpl in Hbad; done.
  - unfold InMemoryCache.GetTopBanners. fold (topBannersKey id).
    rewrite (get_live _ _ _ _ E Hnow); simpl.
    destruct (CacheItem.Value item); simpl in Hbad; done.
Qed.

End MistypedEntries.

(** C10 at a concrete input: the entry of banner 1 holds click statistics.
    [GetBanner] reports a miss, the statistics count one hit and no miss,
    and [GetBannerByID] fetches the banner and stores it over the entry. *)
Lemma mistyped_entry_is_counted_as_hit_witness :
  (InMemoryCache.GetBanner 1 1 mistypedCache).1 = (None, false) /\
  counters (InMemoryCache.stats (InMemoryCache.GetBanner 1 1 mistypedCache).2)
  = [1; 0; 1; 0; 0] /\
  InMemoryCache.items
    (CachedRepository.cache
       (CachedRepository.GetBannerByID (stubRepo false false) 1 2 1
          {| CachedRepository.repo := tt;
             CachedRepository.cache := mistypedCache;
             CachedRepository.trace := [] |}).2)
    !! bannerKey 1
  = Some {| CacheItem.Value := PtrBanner (stubBanner 1);
            CacheItem.ExpiresAt := 2 + DefaultBannerTTL |}.
Proof.
  pose proof (mistyped_entry_is_counted_as_hit (stubRepo false false)
                {| CachedRepository.repo := tt;
                   CachedRepository.cache := mistypedCache;
                   CachedRepository.trace := [] |} 1 2 1
                {| CacheItem.Value := PtrClickStats (stubStats 1);
                   CacheItem.ExpiresAt := 0 + DefaultBannerTTL |}) as H.
  destruct H as (H & _); [vm_compute; discriminate|].
  destruct H as ((H1 & _ & H2) & H3); [reflexivity | reflexivity |].
  destruct (H3 (stubBanner 1) tt) as (_ & _ & H4); [reflexivity..|].
  split; [exact H1|]. split; [exact H2|exact H4].
Defined.

(** * Further properties of the code *)

(** ** The store and the typed methods *)

Lemma set_lookup_ne (now ttl : Z) (key key' : string) (v : any)
    (c : InMemoryCache.t) :
  key <> key' ->
  InMemoryCache.items (InMemoryCache.set now key v ttl c) !! key'
  = InMemoryCache.items c !! key'.
Proof. intros Hne. unfold InMemoryCache.set; simpl. by apply lookup_insert_ne. Qed.

(** What [get] answers depends on the entry of its key only. *)
Lemma get_fst_entry (now : Z) (key : string) (c c' : InMemoryCache.t) :
  InMemoryCache.items c !! key = InMemoryCache.items c' !! key ->
  (InMemoryCache.get now key c).1 = (InMemoryCache.get now key c').1.
Proof.
  intros E. unfold InMemoryCache.get. rewrite <- E.
  destruct (InMemoryCache.items c !! key) as [item|]; [|done].
  by destruct (CacheItem.IsExpired now item).
Qed.

Lemma get_items_other (now : Z) (key key' : string) (c : InMemoryCache.t) :
  key <> key' ->
  InMemoryCache.items (InMemoryCache.get now key c).2 !! key'
  = InMemoryCache.items c !! key'.
Proof.
  intros Hne. unfold InMemoryCache.get.
  destruct (InMemoryCache.items c !! key) as [item|]; [|done].
  destruct (CacheItem.IsExpired now item); simpl; [|done].
  by apply lookup_delete_ne.
Qed.

Lemma GetBanner_get (now id : Z) (c : InMemoryCache.t) :
  InMemoryCache.GetBanner now id c
  = (let r := InMemoryCache.get now (bannerKey id) c in
     (if negb r.1.2 then (None, false) else assert_Banner r.1.1, r.2)).
Proof.
  unfold InMemoryCache.GetBanner. fold (bannerKey id).
  by destruct (InMemoryCache.get now (bannerKey id) c) as [[v []] c'].
Qed.

Lemma GetClickStats_get (now id : Z) (c : InMemoryCache.t) :
  InMemoryCache.GetClickStats now id c
  = (let r := InMemoryCache.get now (clickStatsKey id) c in
     (if negb r.1.2 then (None, false) else assert_ClickStats r.1.1, r.2)).
Proof.
  unfold InMemoryCache.GetClickStats. fold (clickStatsKey id).
  by destruct (InMemoryCache.get now (clickStatsKey id) c) as [[v []] c'].
Qed.

Lemma GetBannerWithStats_get (now id : Z) (c : InMemoryCache.t) :
  InMemoryCache.GetBannerWithStats now id c
  = (let r := InMemoryCache.get now (bannerStatsKey id) c in
     (if negb r.1.2 then (None, false) else assert_BannerWithStats r.1.1,
      r.2)).
Proof.
  unfold InMemoryCache.GetBannerWithStats. fold (bannerStatsKey id).
  by destruct (InMemoryCache.get now (bannerStatsKey id) c) as [[v []] c'].
Qed.

Lemma GetTopBanners_get (now limit : Z) (c : InMemoryCache.t) :
  InMemoryCache.GetTopBanners now limit c
  = (let r := InMemoryCache.get now (topBannersKey limit) c in
     (if negb r.1.2 then (None, false) else assert_TopBanners r.1.1, r.2)).
Proof.
  unfold InMemoryCache.GetTopBanners. fold (topBannersKey limit).
  by destruct (InMemoryCache.get now (topBannersKey limit) c) as [[v []] c'].
Qed.

(** What a typed read answers depends on the entry of its key only. *)
Lemma typed_reads_entry (now id : Z) (c c' : InMemoryCache.t) :
  (InMemoryCache.items c !! bannerKey id
   = InMemoryCache.items c' !! bannerKey id ->
   (InMemoryCache.GetBanner now id c).1
   = (InMemoryCache.GetBanner now id c').1) /\
  (InMemoryCache.items c !! clickStatsKey id
   = InMemoryCache.items c' !! clickStatsKey id ->
   (InMemoryCache.GetClickStats now id c).1
   = (InMemoryCache.GetClickStats now id c').1) /\
  (InMemoryCache.items c !! bannerStatsKey id
   = InMemoryCache.items c' !! bannerStatsKey id ->
   (InMemoryCache.GetBannerWithStats now id c).1
   = (InMemoryCache.GetBannerWithStats now id c').1) /\
  (InMemoryCache.items c !! topBannersKey id
   = InMemoryCache.items c' !! topBannersKey id ->
   (InMemoryCache.GetTopBanners now id c).1
   = (InMemoryCache.GetTopBanners now id c').1).
Proof.
  rewrite !GetBanner_get, !GetClickStats_get, !GetBannerWithStats_get,
    !GetTopBanners_get; cbv zeta; simpl.
  repeat split; intros E; by rewrite (get_fst_entry _ _ _ _ E).
Qed.

(** X1: a typed write followed by the typed read of the same kind and the
    same id, at an instant not after the expiration instant, returns the
    value written; this holds for every id, whatever its key. *)
Theorem typed_set_then_get (s now ttl id : Z) (c : InMemoryCache.t)
    (banner : Banner.t) (stats : ClickStats.t) (both : BannerWithStats.t)
    (top : list BannerClickCount.t) :
  now <= s + ttl ->
  (InMemoryCache.GetBanner now (Banner.ID banner)
     (InMemoryCache.SetBanner s banner ttl c)).1 = (Some banner, true) /\
  (InMemoryCache.GetClickStats now id
     (InMemoryCache.SetClickStats s id stats ttl c)).1 = (Some stats, true) /\
  (InMemoryCache.GetBannerWithStats now id
     (InMemoryCache.SetBannerWithStats s id both ttl c)).1
  = (Some both, true) /\
  (InMemoryCache.GetTopBanners now id
     (InMemoryCache.SetTopBanners s id top ttl c)).1 = (Some top, true).
Proof.
  intros Hnow.
  rewrite GetBanner_get, GetClickStats_get, GetBannerWithStats_get,
    GetTopBanners_get; cbv zeta.
  unfold InMemoryCache.SetBanner, InMemoryCache.SetClickStats,
    InMemoryCache.SetBannerWithStats, InMemoryCache.SetTopBanners.
  fold (bannerKey (Banner.ID banner)) (clickStatsKey id) (bannerStatsKey id)
    (topBannersKey id).
  repeat split.
  all: match goal with
       | |- context [InMemoryCache.get _ ?k (InMemoryCache.set _ _ ?v _ _)] =>
           rewrite (get_live now k _ _ (set_lookup s ttl k v c))
             by (simpl; lia)
       end; reflexivity.
Qed.

Lemma typed_set_then_get_witness :
  (InMemoryCache.GetBanner 5 7
     (InMemoryCache.SetBanner 0 (stubBanner 7) 5 NewInMemoryCache)).1
  = (Some (stubBanner 7), true) /\
  (InMemoryCache.GetTopBanners 5 10
     (InMemoryCache.SetTopBanners 0 10 [] 5 NewInMemoryCache)).1
  = (Some [], true).
Proof.
  pose proof (typed_set_then_get 0 5 5 10 NewInMemoryCache (stubBanner 7)
                (stubStats 10)
                {| BannerWithStats.Banner := stubBanner 10;
                   BannerWithStats.ClickCount := 0;
                   BannerWithStats.LastClick := None |} [])
    as (H1 & _ & _ & H2); [lia|].
  split; assumption.
Defined.

Lemma typed_set_items (s ttl id : Z) (c : InMemoryCache.t)
    (banner : Banner.t) (stats : ClickStats.t) (both : BannerWithStats.t)
    (top : list BannerClickCount.t) (key : string) :
  (key <> bannerKey (Banner.ID banner) ->
   InMemoryCache.items (InMemoryCache.SetBanner s banner ttl c) !! key
   = InMemoryCache.items c !! key) /\
  (key <> clickStatsKey id ->
   InMemoryCache.items (InMemoryCache.SetClickStats s id stats ttl c) !! key
   = InMemoryCache.items c !! key) /\
  (key <> bannerStatsKey id ->
   InMemoryCache.items (InMemoryCache.SetBannerWithStats s id both ttl c)
     !! key
   = InMemoryCache.items c !! key) /\
  (key <> topBannersKey id ->
   InMemoryCache.items (InMemoryCache.SetTopBanners s id top ttl c) !! key
   = InMemoryCache.items c !! key).
Proof.
  unfold InMemoryCache.SetBanner, InMemoryCache.SetClickStats,
    InMemoryCache.SetBannerWithStats, InMemoryCache.SetTopBanners.
  fold (bannerKey (Banner.ID banner)) (clickStatsKey id) (bannerStatsKey id)
    (topBannersKey id).
  repeat split; intros Hne; by apply set_lookup_ne.
Qed.

(** X2: a typed write never changes what a typed read of another kind
    answers, whatever the two ids are: the four namespaces are closed under
    the methods of their kind. *)
Theorem typed_set_keeps_other_kinds (s now ttl x y : Z) (c : InMemoryCache.t)
    (banner : Banner.t) (stats : ClickStats.t) (both : BannerWithStats.t)
    (top : list BannerClickCount.t) :
  let c1 := InMemoryCache.SetBanner s banner ttl c in
  let c2 := InMemoryCache.SetClickStats s y stats ttl c in
  let c3 := InMemoryCache.SetBannerWithStats s y both ttl c in
  let c4 := InMemoryCache.SetTopBanners s y top ttl c in
  ((InMemoryCache.GetClickStats now x c1).1
   = (InMemoryCache.GetClickStats now x c).1 /\
   (InMemoryCache.GetBannerWithStats now x c1).1
   = (InMemoryCache.GetBannerWithStats now x c).1 /\
   (InMemoryCache.GetTopBanners now x c1).1
   = (InMemoryCache.GetTopBanners now x c).1) /\
  ((InMemoryCache.GetBanner now x c2).1 = (InMemoryCache.GetBanner now x c).1 /\
   (InMemoryCache.GetBannerWithStats now x c2).1
   = (InMemoryCache.GetBannerWithStats now x c).1 /\
   (InMemoryCache.GetTopBanners now x c2).1
   = (InMemoryCache.GetTopBanners now x c).1) /\
  ((InMemoryCache.GetBanner now x c3).1 = (InMemoryCache.GetBanner now x c).1 /\
   (InMemoryCache.GetClickStats now x c3).1
   = (InMemoryCache.GetClickStats now x c).1 /\
   (InMemoryCache.GetTopBanners now x c3).1
   = (InMemoryCache.GetTopBanners now x c).1) /\
  ((InMemoryCache.GetBanner now x c4).1 = (InMemoryCache.GetBanner now x c).1 /\
   (InMemoryCache.GetClickStats now x c4).1
   = (InMemoryCache.GetClickStats now x c).1 /\
   (InMemoryCache.GetBannerWithStats now x c4).1
   = (InMemoryCache.GetBannerWithStats now x c).1).
Proof.
  cbv zeta.
  destruct (namespaces_disjoint x (Banner.ID banner))
    as (A1 & A2 & A3 & A4 & A5 & A6).
  destruct (namespaces_disjoint (Banner.ID banner) x)
    as (B1 & B2 & B3 & B4 & B5 & B6).
  destruct (namespaces_disjoint x y) as (C1 & C2 & C3 & C4 & C5 & C6).
  destruct (namespaces_disjoint y x) as (E1 & E2 & E3 & E4 & E5 & E6).
  repeat split.
  all: first
    [ apply (proj1 (typed_reads_entry now x _ c))
    | apply (proj1 (proj2 (typed_reads_entry now x _ c)))
    | apply (proj1 (proj2 (proj2 (typed_reads_entry now x _ c))))
    | apply (proj2 (proj2 (proj2 (typed_reads_entry now x _ c)))) ].
  all: first
    [ apply (proj1 (typed_set_items s ttl y c banner stats both top _))
    | apply (proj1 (proj2 (typed_set_items s ttl y c banner stats both top _)))
    | apply (proj1 (proj2 (proj2
               (typed_set_items s ttl y c banner stats both top _))))
    | apply (proj2 (proj2 (proj2
               (typed_set_items s ttl y c banner stats both top _)))) ].
  all: congruence.
Qed.

Lemma size_pos_of_lookup (m : gmap string CacheItem.t) (key : string)
    (item : CacheItem.t) :
  m !! key = Some item -> (1 <= size m)%nat.
Proof.
  intros E. pose proof (map_size_ne_0_lookup_2 m key (mk_is_Some _ _ E)). lia.
Qed.

Lemma size_delete_Z (m : gmap string CacheItem.t) (key : string) :
  Z.of_nat (size (base.delete key m))
  = Z.of_nat (size m) - match m !! key with Some _ => 1 | None => 0 end.
Proof.
  rewrite map_size_delete.
  destruct (m !! key) as [item|] eqn:E; simpl; [|lia].
  pose proof (size_pos_of_lookup m key item E). lia.
Qed.

Lemma Size_moves (now ttl : Z) (key : string) (v : any)
    (c : InMemoryCache.t) :
  InMemoryCache.Size (InMemoryCache.set now key v ttl c)
  = InMemoryCache.Size c
    + match InMemoryCache.items c !! key with Some _ => 0 | None => 1 end /\
  InMemoryCache.Size (InMemoryCache.delete key c)
  = InMemoryCache.Size c
    - match InMemoryCache.items c !! key with Some _ => 1 | None => 0 end /\
  InMemoryCache.Size (InMemoryCache.get now key c).2
  = InMemoryCache.Size c
    - match InMemoryCache.items c !! key with
      | Some item => if CacheItem.IsExpired now item then 1 else 0
      | None => 0
      end.
Proof.
  unfold InMemoryCache.Size. split; [|split].
  - unfold InMemoryCache.set; simpl. rewrite map_size_insert.
    destruct (InMemoryCache.items c !! key); simpl; lia.
  - rewrite delete_items. apply size_delete_Z.
  - unfold InMemoryCache.get.
    destruct (InMemoryCache.items c !! key) as [item|] eqn:E; simpl; [|lia].
    destruct (CacheItem.IsExpired now item); simpl; [|lia].
    rewrite size_delete_Z, E. lia.
Qed.

(** X3: how the three store operations move [Size].  [set] adds one when
    the key is new and nothing when it overwrites; [delete] takes one away
    when the key is present; [get] takes one away exactly when it finds an
    expired entry.  An entry counts in [Size] whatever its expiration
    instant, until one of these removes it; [Size] is never negative. *)
Theorem Size_accounting (now ttl : Z) (key : string) (v : any)
    (c : InMemoryCache.t) :
  0 <= InMemoryCache.Size c /\
  InMemoryCache.Size (InMemoryCache.set now key v ttl c)
  = InMemoryCache.Size c
    + match InMemoryCache.items c !! key with Some _ => 0 | None => 1 end /\
  InMemoryCache.Size (InMemoryCache.delete key c)
  = InMemoryCache.Size c
    - match InMemoryCache.items c !! key with Some _ => 1 | None => 0 end /\
  InMemoryCache.Size (InMemoryCache.get now key c).2
  = InMemoryCache.Size c
    - match InMemoryCache.items c !! key with
      | Some item => if CacheItem.IsExpired now item then 1 else 0
      | None => 0
      end.
Proof.
  split; [unfold InMemoryCache.Size; lia|]. apply Size_moves.
Qed.

(** X4: a TTL that is zero or negative is accepted.  With a negative TTL the
    entry is stored and counted by [Size], and a [get] at the instant of the
    [set] or later misses, removes it and counts one expiration.  With a TTL
    of zero the entry is still returned at the very instant of the [set]. *)
Theorem set_with_nonpositive_ttl (s now ttl : Z) (key : string) (v : any)
    (c : InMemoryCache.t) :
  let c1 := InMemoryCache.set s key v ttl c in
  (ttl < 0 -> s <= now ->
   InMemoryCache.items c1 !! key
   = Some {| CacheItem.Value := v; CacheItem.ExpiresAt := s + ttl |} /\
   (InMemoryCache.get now key c1).1 = (None, false) /\
   InMemoryCache.items (InMemoryCache.get now key c1).2 !! key = None /\
   CacheStats.Expirations (InMemoryCache.stats (InMemoryCache.get now key c1).2)
   = Go.incr64 (CacheStats.Expirations (InMemoryCache.stats c))) /\
  (ttl = 0 ->
   (InMemoryCache.get s key c1).1 = (Some v, true) /\
   forall later, s < later ->
     (InMemoryCache.get later key c1).1 = (None, false)).
Proof.
  cbv zeta. pose proof (set_lookup s ttl key v c) as E. split.
  - intros Httl Hnow. split; [exact E|].
    rewrite (get_expired now _ _ _ E) by (simpl; lia). simpl.
    split; [done|]. split; [apply lookup_delete_eq|done].
  - intros ->. split.
    + by rewrite (get_live s _ _ _ E) by (simpl; lia).
    + intros later Hlater.
      by rewrite (get_expired later _ _ _ E) by (simpl; lia).
Qed.

Lemma set_with_nonpositive_ttl_witness :
  (InMemoryCache.get 0 (bannerKey 7)
     (InMemoryCache.set 0 (bannerKey 7) (PtrBanner (stubBanner 7)) (-1)
        NewInMemoryCache)).1
  = (None, false) /\
  (InMemoryCache.get 0 (bannerKey 7)
     (InMemoryCache.set 0 (bannerKey 7) (PtrBanner (stubBanner 7)) 0
        NewInMemoryCache)).1
  = (Some (PtrBanner (stubBanner 7)), true).
Proof.
  pose proof (set_with_nonpositive_ttl 0 0 (-1) (bannerKey 7)
                (PtrBanner (stubBanner 7)) NewInMemoryCache) as (Hneg & _).
  pose proof (set_with_nonpositive_ttl 0 0 0 (bannerKey 7)
                (PtrBanner (stubBanner 7)) NewInMemoryCache) as (_ & Hzero).
  destruct Hneg as (_ & H1 & _); [lia | lia |].
  destruct Hzero as (H2 & _); [reflexivity|].
  split; assumption.
Defined.

(** ** The reaper *)

Lemma cleanup_scan (clock : string -> Z) (M : gmap string CacheItem.t)
    (l : list (string * CacheItem.t)) :
  NoDup l.*1 ->
  (forall k item, (k, item) ∈ l -> M !! k = Some item) ->
  Z.of_nat (length l) < 2 ^ 63 ->
  let r := foldr (uncurry (cleanupStep clock)) (M, 0) l in
  (forall j,
     r.1 !! j
     = match M !! j with
       | Some item =>
           if decide (j ∈ l.*1)
           then if CacheItem.IsExpired (clock j) item then None else Some item
           else Some item
       | None => None
       end) /\
  0 <= r.2 <= Z.of_nat (length l) /\
  Z.of_nat (size r.1) + r.2 = Z.of_nat (size M).
Proof.
  cbv zeta. induction l as [|[k item] l IH]; intros Hnd Hin Hlen.
  - simpl. split; [|lia]. intros j. destruct (M !! j); [|done].
    done.
  - rewrite fmap_cons in Hnd. apply NoDup_cons in Hnd as [Hk Hnd].
    simpl in Hlen.
    destruct IH as (IH1 & IH2 & IH3); [done| |lia|].
    { intros k' item' Hel. apply Hin. by right. }
    assert (M !! k = Some item) as Ek by (apply Hin; left).
    change (foldr (uncurry (cleanupStep clock)) (M, 0) ((k, item) :: l))
      with (cleanupStep clock k item
              (foldr (uncurry (cleanupStep clock)) (M, 0) l)).
    set (r := foldr (uncurry (cleanupStep clock)) (M, 0) l) in *.
    assert (r.1 !! k = Some item) as Erk.
    { rewrite IH1, Ek. by rewrite decide_False. }
    unfold cleanupStep.
    destruct (CacheItem.IsExpired (clock k) item) eqn:Hexp; cbn [fst snd].
    + split; [|split].
      * intros j. destruct (decide (j = k)) as [->|Hjk].
        -- rewrite lookup_delete_eq, Ek. rewrite decide_True by left.
           by rewrite Hexp.
        -- rewrite lookup_delete_ne by done. rewrite IH1.
           destruct (M !! j) as [item'|]; [|done].
           destruct (decide (j ∈ l.*1)) as [Hj|Hj].
           ++ by rewrite decide_True by (by right).
           ++ rewrite decide_False; [done|].
              intros [?|?]%elem_of_cons; done.
      * rewrite incr64_no_overflow by lia. simpl length. lia.
      * rewrite incr64_no_overflow by lia.
        rewrite map_size_delete, Erk.
        pose proof (map_size_ne_0_lookup_2 r.1 k (mk_is_Some _ _ Erk)). lia.
    + split; [|split; [simpl length; lia|done]].
      intros j. rewrite IH1.
      destruct (M !! j) as [item'|] eqn:Ej; [|done].
      destruct (decide (j = k)) as [->|Hjk].
      * rewrite decide_False by done. rewrite decide_True by left.
        assert (item' = item) as -> by congruence. by rewrite Hexp.
      * destruct (decide (j ∈ l.*1)) as [Hj|Hj].
        -- by rewrite decide_True by (by right).
        -- rewrite decide_False; [done|].
           intros [?|?]%elem_of_cons; done.
Qed.

Lemma cleanupExpired_scan (clock : string -> Z) (c : InMemoryCache.t) :
  Z.of_nat (size (InMemoryCache.items c)) < 2 ^ 63 ->
  let c' := InMemoryCache.cleanupExpired clock c in
  (forall key,
     InMemoryCache.items c' !! key
     = match InMemoryCache.items c !! key with
       | Some item =>
           if CacheItem.IsExpired (clock key) item then None else Some item
       | None => None
       end) /\
  InMemoryCache.stats c'
  = CacheStats.addExpirations
      (InMemoryCache.Size c - InMemoryCache.Size c') (InMemoryCache.stats c).
Proof.
  intros Hsize. cbv zeta.
  unfold InMemoryCache.cleanupExpired, InMemoryCache.Size.
  change (map_fold _ (InMemoryCache.items c, 0) (InMemoryCache.items c))
    with (map_fold (cleanupStep clock) (InMemoryCache.items c, 0)
            (InMemoryCache.items c)).
  rewrite map_fold_foldr.
  destruct (cleanup_scan clock (InMemoryCache.items c)
              (map_to_list (InMemoryCache.items c))) as (H1 & H2 & H3).
  - apply NoDup_fst_map_to_list.
  - intros k item. apply elem_of_map_to_list.
  - by rewrite length_map_to_list.
  - cbv zeta in H1, H2, H3. simpl. split.
    + intros key. rewrite H1.
      destruct (InMemoryCache.items c !! key) as [item|] eqn:E; [|done].
      rewrite decide_True; [done|].
      apply list_elem_of_fmap. exists (key, item).
      split; [done|]. by apply elem_of_map_to_list.
    + f_equal. lia.
Qed.

(** X5: one firing of the reaper removes exactly the entries that are
    expired when it examines them and keeps every other entry as it is; it
    adds the number of entries removed to the expiration counter and leaves
    the other four counters alone.  The count is exact as long as the map
    holds fewer than 2^63 entries. *)
Theorem cleanupExpired_removes_expired (clock : string -> Z)
    (c : InMemoryCache.t) :
  Z.of_nat (size (InMemoryCache.items c)) < 2 ^ 63 ->
  let c' := InMemoryCache.cleanupExpired clock c in
  let s := InMemoryCache.stats c in
  (forall key,
     InMemoryCache.items c' !! key
     = match InMemoryCache.items c !! key with
       | Some item =>
           if CacheItem.IsExpired (clock key) item then None else Some item
       | None => None
       end) /\
  InMemoryCache.Size c' <= InMemoryCache.Size c /\
  counters (InMemoryCache.stats c')
  = [CacheStats.Hits s; CacheStats.Misses s; CacheStats.Sets s;
     CacheStats.Deletes s;
     Go.wrap 64 (CacheStats.Expirations s
                 + (InMemoryCache.Size c - InMemoryCache.Size c'))].
Proof.
  intros Hsize. cbv zeta.
  destruct (cleanupExpired_scan clock c Hsize) as (H1 & H2).
  split; [exact H1|]. split; [|by rewrite H2].
  unfold InMemoryCache.Size. apply inj_le. apply map_subseteq_size.
  apply map_subseteq_spec. intros key item. rewrite H1.
  destruct (InMemoryCache.items c !! key) as [item'|]; [|done].
  by destruct (CacheItem.IsExpired (clock key) item').
Qed.

(** X5 on the populated cache, examined two minutes and one nanosecond
    after it was filled: the ranked list (one minute) and the statistics
    (two minutes) go, the banner (five minutes) stays. *)
Lemma cleanupExpired_removes_expired_witness :
  InMemoryCache.items
    (InMemoryCache.cleanupExpired (fun _ => 2 * Go.Minute + 1) populatedCache)
    !! topBannersKey 10 = None /\
  InMemoryCache.items
    (InMemoryCache.cleanupExpired (fun _ => 2 * Go.Minute + 1) populatedCache)
    !! bannerKey 3
  = InMemoryCache.items populatedCache !! bannerKey 3 /\
  counters
    (InMemoryCache.stats
       (InMemoryCache.cleanupExpired (fun _ => 2 * Go.Minute + 1)
          populatedCache))
  = [0; 0; 3; 0; 2].
Proof.
  pose proof (cleanupExpired_removes_expired (fun _ => 2 * Go.Minute + 1)
                populatedCache) as H.
  destruct H as (H1 & _ & H2); [vm_compute; reflexivity|].
  split; [by rewrite H1|]. split; [by rewrite H1|].
  rewrite H2. vm_compute. reflexivity.
Defined.

(** X6: the reaper is invisible to reads.  A [get] or a typed read at an
    instant not before the one at which the reaper examined its key answers
    the same whether the reaper has fired or not: what the reaper removed
    would have been a miss. *)
Theorem cleanupExpired_invisible_to_reads (clock : string -> Z)
    (c : InMemoryCache.t) (now id : Z) (key : string) :
  Z.of_nat (size (InMemoryCache.items c)) < 2 ^ 63 ->
  let c' := InMemoryCache.cleanupExpired clock c in
  (clock key <= now ->
   (InMemoryCache.get now key c').1 = (InMemoryCache.get now key c).1) /\
  (clock (bannerKey id) <= now ->
   (InMemoryCache.GetBanner now id c').1
   = (InMemoryCache.GetBanner now id c).1) /\
  (clock (clickStatsKey id) <= now ->
   (InMemoryCache.GetClickStats now id c').1
   = (InMemoryCache.GetClickStats now id c).1) /\
  (clock (bannerStatsKey id) <= now ->
   (InMemoryCache.GetBannerWithStats now id c').1
   = (InMemoryCache.GetBannerWithStats now id c).1) /\
  (clock (topBannersKey id) <= now ->
   (InMemoryCache.GetTopBanners now id c').1
   = (InMemoryCache.GetTopBanners now id c).1).
Proof.
  intros Hsize. cbv zeta.
  destruct (cleanupExpired_scan clock c Hsize) as (H1 & _).
  assert (Hget : forall k, clock k <= now ->
            (InMemoryCache.get now k (InMemoryCache.cleanupExpired clock c)).1
            = (InMemoryCache.get now k c).1).
  { intros k Hk. unfold InMemoryCache.get. rewrite H1.
    destruct (InMemoryCache.items c !! k) as [item|]; [|done].
    unfold CacheItem.IsExpired.
    destruct (Z.ltb_spec (CacheItem.ExpiresAt item) (clock k)),
      (Z.ltb_spec (CacheItem.ExpiresAt item) now); simpl; try done; lia. }
  rewrite !GetBanner_get, !GetClickStats_get, !GetBannerWithStats_get,
    !GetTopBanners_get; cbv zeta; simpl.
  repeat split; intros Hk; by rewrite (Hget _ Hk).
Qed.

Lemma cleanupExpired_invisible_to_reads_witness :
  (InMemoryCache.GetTopBanners (2 * Go.Minute + 1) 10
     (InMemoryCache.cleanupExpired (fun _ => 2 * Go.Minute + 1)
        populatedCache)).1
  = (InMemoryCache.GetTopBanners (2 * Go.Minute + 1) 10 populatedCache).1.
Proof.
  pose proof (cleanupExpired_invisible_to_reads (fun _ => 2 * Go.Minute + 1)
                populatedCache (2 * Go.Minute + 1) 10 (bannerKey 10)) as H.
  destruct H as (_ & _ & _ & _ & H); [vm_compute; reflexivity|].
  apply H. lia.
Defined.

(** ** Statistics over a history of calls *)









(** ** Read-through and write-then-invalidate *)

Lemma GetClickStats_hit (now id : Z) (c : InMemoryCache.t)
    (item : CacheItem.t) (stats : ClickStats.t) :
  InMemoryCache.items c !! clickStatsKey id = Some item ->
  CacheItem.Value item = PtrClickStats stats ->
  now <= CacheItem.ExpiresAt item ->
  InMemoryCache.GetClickStats now id c
  = ((Some stats, true), InMemoryCache.withStats CacheStats.incrHits c).
Proof.
  intros E Hv Hnow. unfold InMemoryCache.GetClickStats.
  fold (clickStatsKey id). rewrite (get_live _ _ _ _ E Hnow); simpl.
  by rewrite Hv.
Qed.

(** [get] stores nothing: every entry after it was there before. *)
Lemma get_only_removes (now : Z) (key k : string) (c : InMemoryCache.t)
    (item : CacheItem.t) :
  InMemoryCache.items (InMemoryCache.get now key c).2 !! k = Some item ->
  InMemoryCache.items c !! k = Some item.
Proof.
  unfold InMemoryCache.get.
  destruct (InMemoryCache.items c !! key) as [it|]; [|done].
  destruct (CacheItem.IsExpired now it); simpl; [|done].
  intros H. by apply lookup_delete_Some in H as [_ H].
Qed.

Lemma get_keeps_Sets (now : Z) (key : string) (c : InMemoryCache.t) :
  CacheStats.Sets (InMemoryCache.stats (InMemoryCache.get now key c).2)
  = CacheStats.Sets (InMemoryCache.stats c).
Proof.
  unfold InMemoryCache.get.
  destruct (InMemoryCache.items c !! key) as [it|]; [|done].
  by destruct (CacheItem.IsExpired now it).
Qed.

Section ReadThrough.

Context {D : Type} (R : Repository.Ops D).

Implicit Types r : CachedRepository.t D InMemoryCache.t.

Lemma GetClickStats_fetched r (now now' id : Z) (stats : ClickStats.t)
    (d' : D) :
  (InMemoryCache.GetClickStats now id (CachedRepository.cache r)).1.2 = false ->
  Repository.GetClickStats R id (CachedRepository.repo r) = (inr stats, d') ->
  CachedRepository.GetClickStats R now now' id r
  = ((Some stats, None),
     {| CachedRepository.repo := d';
        CachedRepository.cache :=
          InMemoryCache.SetClickStats now' id stats DefaultClickStatsTTL
            (InMemoryCache.GetClickStats now id (CachedRepository.cache r)).2;
        CachedRepository.trace :=
          (CachedRepository.trace r
             ++ [Repository.CallGetClickStats id])%list |}).
Proof.
  intros Hmiss Hrepo.
  unfold CachedRepository.GetClickStats, CachedRepository.bind,
    CachedRepository.cached; simpl.
  destruct (InMemoryCache.GetClickStats now id (CachedRepository.cache r))
    as [[st found] c1].
  simpl in Hmiss. subst found. simpl.
  unfold CachedRepository.backing; simpl. by rewrite Hrepo.
Qed.

Lemma GetClickStats_served_from_cache r (now now' id : Z)
    (item : CacheItem.t) (stats : ClickStats.t) :
  InMemoryCache.items (CachedRepository.cache r) !! clickStatsKey id
  = Some item ->
  CacheItem.Value item = PtrClickStats stats ->
  now <= CacheItem.ExpiresAt item ->
  CachedRepository.GetClickStats R now now' id r
  = ((Some stats, None),
     {| CachedRepository.repo := CachedRepository.repo r;
        CachedRepository.cache :=
          InMemoryCache.withStats CacheStats.incrHits
            (CachedRepository.cache r);
        CachedRepository.trace := CachedRepository.trace r |}).
Proof.
  intros E Hv Hnow.
  unfold CachedRepository.GetClickStats, CachedRepository.bind,
    CachedRepository.cached; simpl.
  by rewrite (GetClickStats_hit _ _ _ _ _ E Hv Hnow).
Qed.

Lemma GetTopBanners_fetched r (now now' limit : Z)
    (banners : list BannerClickCount.t) (d' : D) :
  (InMemoryCache.GetTopBanners now limit (CachedRepository.cache r)).1.2
  = false ->
  Repository.GetTopBanners R limit (CachedRepository.repo r)
  = (inr banners, d') ->
  CachedRepository.GetTopBanners R now now' limit r
  = ((Some banners, None),
     {| CachedRepository.repo := d';
        CachedRepository.cache :=
          InMemoryCache.SetTopBanners now' limit banners DefaultTopBannersTTL
            (InMemoryCache.GetTopBanners now limit
               (CachedRepository.cache r)).2;
        CachedRepository.trace :=
          (CachedRepository.trace r
             ++ [Repository.CallGetTopBanners limit])%list |}).
Proof.
  intros Hmiss Hrepo.
  unfold CachedRepository.GetTopBanners, CachedRepository.bind,
    CachedRepository.cached; simpl.
  destruct (InMemoryCache.GetTopBanners now limit (CachedRepository.cache r))
    as [[st found] c1].
  simpl in Hmiss. subst found. simpl.
  unfold CachedRepository.backing; simpl. by rewrite Hrepo.
Qed.

Lemma GetBannerByID_fetched r (now now' id : Z) (banner : Banner.t)
    (d' : D) :
  (InMemoryCache.GetBanner now id (CachedRepository.cache r)).1.2 = false ->
  Repository.GetBannerByID R id (CachedRepository.repo r)
  = (inr banner, d') ->
  CachedRepository.GetBannerByID R now now' id r
  = ((Some banner, None),
     {| CachedRepository.repo := d';
        CachedRepository.cache :=
          InMemoryCache.SetBanner now' banner DefaultBannerTTL
            (InMemoryCache.GetBanner now id (CachedRepository.cache r)).2;
        CachedRepository.trace :=
          (CachedRepository.trace r
             ++ [Repository.CallGetBannerByID id])%list |}).
Proof.
  intros Hmiss Hrepo.
  unfold CachedRepository.GetBannerByID, CachedRepository.bind,
    CachedRepository.cached; simpl.
  destruct (InMemoryCache.GetBanner now id (CachedRepository.cache r))
    as [[st found] c1].
  simpl in Hmiss. subst found. simpl.
  unfold CachedRepository.backing; simpl. by rewrite Hrepo.
Qed.

Lemma GetBannerByID_served_from_cache r (now now' id : Z)
    (item : CacheItem.t) (banner : Banner.t) :
  InMemoryCache.items (CachedRepository.cache r) !! bannerKey id
  = Some item ->
  CacheItem.Value item = PtrBanner banner ->
  now <= CacheItem.ExpiresAt item ->
  CachedRepository.GetBannerByID R now now' id r
  = ((Some banner, None),
     {| CachedRepository.repo := CachedRepository.repo r;
        CachedRepository.cache :=
          InMemoryCache.withStats CacheStats.incrHits
            (CachedRepository.cache r);
        CachedRepository.trace := CachedRepository.trace r |}).
Proof.
  intros E Hv Hnow.
  unfold CachedRepository.GetBannerByID, CachedRepository.bind,
    CachedRepository.cached; simpl.
  by rewrite (GetBanner_hit _ _ _ _ _ E Hv Hnow).
Qed.

(** X8: [GetClickStats] reads through.  On a cache miss it asks the backing
    store once, returns the statistics and stores them; a second call, up to
    the default TTL after the first, returns the same statistics from the
    cache: the database state and the trace of backing calls stay as the
    first call left them. *)
Theorem GetClickStats_reads_through r (now now' now2 now2' id : Z)
    (stats : ClickStats.t) (d' : D) :
  (InMemoryCache.GetClickStats now id (CachedRepository.cache r)).1.2 = false ->
  Repository.GetClickStats R id (CachedRepository.repo r) = (inr stats, d') ->
  now2 <= now' + DefaultClickStatsTTL ->
  let r1 := CachedRepository.GetClickStats R now now' id r in
  let r2 := CachedRepository.GetClickStats R now2 now2' id r1.2 in
  r1.1 = (Some stats, None) /\
  CachedRepository.repo r1.2 = d' /\
  CachedRepository.trace r1.2
  = (CachedRepository.trace r ++ [Repository.CallGetClickStats id])%list /\
  r2.1 = (Some stats, None) /\
  CachedRepository.repo r2.2 = d' /\
  CachedRepository.trace r2.2 = CachedRepository.trace r1.2.
Proof.
  intros Hmiss Hrepo Hnow. cbv zeta.
  rewrite (GetClickStats_fetched _ _ _ _ _ _ Hmiss Hrepo); simpl.
  erewrite GetClickStats_served_from_cache;
    [ done
    | simpl; unfold InMemoryCache.SetClickStats; fold (clickStatsKey id);
      apply set_lookup
    | reflexivity
    | simpl; lia ].
Qed.

(** X9: [GetTopBanners] reads through in the same way, keyed by the limit. *)
Theorem GetTopBanners_reads_through r (now now' now2 now2' limit : Z)
    (banners : list BannerClickCount.t) (d' : D) :
  (InMemoryCache.GetTopBanners now limit (CachedRepository.cache r)).1.2
  = false ->
  Repository.GetTopBanners R limit (CachedRepository.repo r)
  = (inr banners, d') ->
  now2 <= now' + DefaultTopBannersTTL ->
  let r1 := CachedRepository.GetTopBanners R now now' limit r in
  let r2 := CachedRepository.GetTopBanners R now2 now2' limit r1.2 in
  r1.1 = (Some banners, None) /\
  CachedRepository.repo r1.2 = d' /\
  CachedRepository.trace r1.2
  = (CachedRepository.trace r ++ [Repository.CallGetTopBanners limit])%list /\
  r2.1 = (Some banners, None) /\
  CachedRepository.repo r2.2 = d' /\
  CachedRepository.trace r2.2 = CachedRepository.trace r1.2.
Proof.
  intros Hmiss Hrepo Hnow. cbv zeta.
  rewrite (GetTopBanners_fetched _ _ _ _ _ _ Hmiss Hrepo); simpl.
  erewrite GetTopBanners_served_from_cache;
    [ done
    | simpl; unfold InMemoryCache.SetTopBanners; fold (topBannersKey limit);
      apply set_lookup
    | reflexivity
    | simpl; lia ].
Qed.

(** X10: [GetBannerByID] reads through when the backing store answers with
    the banner of the id that was asked for.  The entry is stored under the
    id of the banner returned, [banner.ID], not under the argument. *)
Theorem GetBannerByID_reads_through r (now now' now2 now2' id : Z)
    (banner : Banner.t) (d' : D) :
  (InMemoryCache.GetBanner now id (CachedRepository.cache r)).1.2 = false ->
  Repository.GetBannerByID R id (CachedRepository.repo r)
  = (inr banner, d') ->
  Banner.ID banner = id ->
  now2 <= now' + DefaultBannerTTL ->
  let r1 := CachedRepository.GetBannerByID R now now' id r in
  let r2 := CachedRepository.GetBannerByID R now2 now2' id r1.2 in
  r1.1 = (Some banner, None) /\
  CachedRepository.repo r1.2 = d' /\
  CachedRepository.trace r1.2
  = (CachedRepository.trace r ++ [Repository.CallGetBannerByID id])%list /\
  r2.1 = (Some banner, None) /\
  CachedRepository.repo r2.2 = d' /\
  CachedRepository.trace r2.2 = CachedRepository.trace r1.2.
Proof.
  intros Hmiss Hrepo Hid Hnow. cbv zeta.
  rewrite (GetBannerByID_fetched _ _ _ _ _ _ Hmiss Hrepo); simpl.
  erewrite GetBannerByID_served_from_cache;
    [ done
    | simpl; unfold InMemoryCache.SetBanner; rewrite Hid; fold (bannerKey id);
      apply set_lookup
    | reflexivity
    | simpl; lia ].
Qed.

End ReadThrough.

Lemma GetClickStats_reads_through_witness :
  (CachedRepository.GetClickStats (stubRepo false false) 3 3 3
     (CachedRepository.GetClickStats (stubRepo false false) 1 2 3
        {| CachedRepository.repo := tt;
           CachedRepository.cache := NewInMemoryCache;
           CachedRepository.trace := [] |}).2).1
  = (Some (stubStats 3), None).
Proof.
  pose proof (GetClickStats_reads_through (stubRepo false false)
                {| CachedRepository.repo := tt;
                   CachedRepository.cache := NewInMemoryCache;
                   CachedRepository.trace := [] |}
                1 2 3 3 3 (stubStats 3) tt) as H.
  destruct H as (_ & _ & _ & H1 & _); [reflexivity | reflexivity | | ].
  { vm_compute. discriminate. }
  exact H1.
Defined.

Lemma GetTopBanners_reads_through_witness :
  (CachedRepository.GetTopBanners (stubRepo false false) 3 3 10
     (CachedRepository.GetTopBanners (stubRepo false false) 1 2 10
        {| CachedRepository.repo := tt;
           CachedRepository.cache := NewInMemoryCache;
           CachedRepository.trace := [] |}).2).1
  = (Some [], None).
Proof.
  pose proof (GetTopBanners_reads_through (stubRepo false false)
                {| CachedRepository.repo := tt;
                   CachedRepository.cache := NewInMemoryCache;
                   CachedRepository.trace := [] |}
                1 2 3 3 10 [] tt) as H.
  destruct H as (_ & _ & _ & H1 & _); [reflexivity | reflexivity | | ].
  { vm_compute. discriminate. }
  exact H1.
Defined.

Lemma GetBannerByID_reads_through_witness :
  (CachedRepository.GetBannerByID (stubRepo false false) 3 3 7
     (CachedRepository.GetBannerByID (stubRepo false false) 1 2 7
        {| CachedRepository.repo := tt;
           CachedRepository.cache := NewInMemoryCache;
           CachedRepository.trace := [] |}).2).1
  = (Some (stubBanner 7), None).
Proof.
  pose proof (GetBannerByID_reads_through (stubRepo false false)
                {| CachedRepository.repo := tt;
                   CachedRepository.cache := NewInMemoryCache;
                   CachedRepository.trace := [] |}
                1 2 3 3 7 (stubBanner 7) tt) as H.
  destruct H as (_ & _ & _ & H1 & _);
    [reflexivity | reflexivity | reflexivity | | ].
  { vm_compute. discriminate. }
  exact H1.
Defined.

Section ReadErrorsAndWrites.

Context {D : Type} (R : Repository.Ops D).

Implicit Types r : CachedRepository.t D InMemoryCache.t.

(** X11: an error of the backing store on a read is returned as it is and
    nothing is cached for it.  The cache after the call is the cache that the
    lookup left: no entry is there that was not there before, and the set
    counter has not moved. *)
Theorem failed_read_is_not_cached r (now now' id : Z) (e : Go.error)
    (d' : D) :
  ((InMemoryCache.GetBanner now id (CachedRepository.cache r)).1.2 = false ->
   Repository.GetBannerByID R id (CachedRepository.repo r) = (inl e, d') ->
   let r1 := CachedRepository.GetBannerByID R now now' id r in
   r1.1 = (None, Some e) /\
   CachedRepository.cache r1.2
   = (InMemoryCache.GetBanner now id (CachedRepository.cache r)).2 /\
   (forall k item,
      InMemoryCache.items (CachedRepository.cache r1.2) !! k = Some item ->
      InMemoryCache.items (CachedRepository.cache r) !! k = Some item) /\
   CacheStats.Sets (InMemoryCache.stats (CachedRepository.cache r1.2))
   = CacheStats.Sets (InMemoryCache.stats (CachedRepository.cache r))) /\
  ((InMemoryCache.GetClickStats now id (CachedRepository.cache r)).1.2 = false ->
   Repository.GetClickStats R id (CachedRepository.repo r) = (inl e, d') ->
   let r1 := CachedRepository.GetClickStats R now now' id r in
   r1.1 = (None, Some e) /\
   CachedRepository.cache r1.2
   = (InMemoryCache.GetClickStats now id (CachedRepository.cache r)).2 /\
   (forall k item,
      InMemoryCache.items (CachedRepository.cache r1.2) !! k = Some item ->
      InMemoryCache.items (CachedRepository.cache r) !! k = Some item) /\
   CacheStats.Sets (InMemoryCache.stats (CachedRepository.cache r1.2))
   = CacheStats.Sets (InMemoryCache.stats (CachedRepository.cache r))) /\
  ((InMemoryCache.GetTopBanners now id (CachedRepository.cache r)).1.2 = false ->
   Repository.GetTopBanners R id (CachedRepository.repo r) = (inl e, d') ->
   let r1 := CachedRepository.GetTopBanners R now now' id r in
   r1.1 = (None, Some e) /\
   CachedRepository.cache r1.2
   = (InMemoryCache.GetTopBanners now id (CachedRepository.cache r)).2 /\
   (forall k item,
      InMemoryCache.items (CachedRepository.cache r1.2) !! k = Some item ->
      InMemoryCache.items (CachedRepository.cache r) !! k = Some item) /\
   CacheStats.Sets (InMemoryCache.stats (CachedRepository.cache r1.2))
   = CacheStats.Sets (InMemoryCache.stats (CachedRepository.cache r))).
Proof.
  split; [|split]; intros Hmiss Hrepo; cbv zeta.
  - assert (CachedRepository.GetBannerByID R now now' id r
            = ((None, Some e),
               {| CachedRepository.repo := d';
                  CachedRepository.cache :=
                    (InMemoryCache.GetBanner now id
                       (CachedRepository.cache r)).2;
                  CachedRepository.trace :=
                    (CachedRepository.trace r
                       ++ [Repository.CallGetBannerByID id])%list |})) as ->.
    { unfold CachedRepository.GetBannerByID, CachedRepository.bind,
        CachedRepository.cached; simpl.
      destruct (InMemoryCache.GetBanner now id (CachedRepository.cache r))
        as [[st found] c1].
      simpl in Hmiss. subst found. simpl.
      unfold CachedRepository.backing; simpl. by rewrite Hrepo. }
    simpl. rewrite GetBanner_get; cbv zeta; simpl.
    repeat split;
      [intros k item; apply get_only_removes | apply get_keeps_Sets].
  - assert (CachedRepository.GetClickStats R now now' id r
            = ((None, Some e),
               {| CachedRepository.repo := d';
                  CachedRepository.cache :=
                    (InMemoryCache.GetClickStats now id
                       (CachedRepository.cache r)).2;
                  CachedRepository.trace :=
                    (CachedRepository.trace r
                       ++ [Repository.CallGetClickStats id])%list |})) as ->.
    { unfold CachedRepository.GetClickStats, CachedRepository.bind,
        CachedRepository.cached; simpl.
      destruct (InMemoryCache.GetClickStats now id (CachedRepository.cache r))
        as [[st found] c1].
      simpl in Hmiss. subst found. simpl.
      unfold CachedRepository.backing; simpl. by rewrite Hrepo. }
    simpl. rewrite GetClickStats_get; cbv zeta; simpl.
    repeat split;
      [intros k item; apply get_only_removes | apply get_keeps_Sets].
  - assert (CachedRepository.GetTopBanners R now now' id r
            = ((None, Some e),
               {| CachedRepository.repo := d';
                  CachedRepository.cache :=
                    (InMemoryCache.GetTopBanners now id
                       (CachedRepository.cache r)).2;
                  CachedRepository.trace :=
                    (CachedRepository.trace r
                       ++ [Repository.CallGetTopBanners id])%list |})) as ->.
    { unfold CachedRepository.GetTopBanners, CachedRepository.bind,
        CachedRepository.cached; simpl.
      destruct (InMemoryCache.GetTopBanners now id (CachedRepository.cache r))
        as [[st found] c1].
      simpl in Hmiss. subst found. simpl.
      unfold CachedRepository.backing; simpl. by rewrite Hrepo. }
    simpl. rewrite GetTopBanners_get; cbv zeta; simpl.
    repeat split;
      [intros k item; apply get_only_removes | apply get_keeps_Sets].
Qed.

(** X12: write-then-read.  After a successful [CreateBanner] the banner, with
    the id that the backing store generated, is served from the cache:
    [GetBannerByID] for that id, up to the default TTL later, returns it and
    the only backing call made is the create. *)
Theorem CreateBanner_then_read r (now now2 now2' : Z)
    (banner banner' : Banner.t) (d' : D) :
  Repository.CreateBanner R banner (CachedRepository.repo r)
  = ((banner', None), d') ->
  now2 <= now + DefaultBannerTTL ->
  let r1 := CachedRepository.CreateBanner R now banner r in
  let r2 :=
    CachedRepository.GetBannerByID R now2 now2' (Banner.ID banner') r1.2 in
  r1.1 = (banner', None) /\
  r2.1 = (Some banner', None) /\
  CachedRepository.repo r2.2 = d' /\
  CachedRepository.trace r2.2
  = (CachedRepository.trace r ++ [Repository.CallCreateBanner banner])%list.
Proof.
  intros Hok Hnow. cbv zeta.
  assert (CachedRepository.CreateBanner R now banner r
          = ((banner', None),
             {| CachedRepository.repo := d';
                CachedRepository.cache :=
                  InMemoryCache.SetBanner now banner' DefaultBannerTTL
                    (CachedRepository.cache r);
                CachedRepository.trace :=
                  (CachedRepository.trace r
                     ++ [Repository.CallCreateBanner banner])%list |})) as ->.
  { unfold CachedRepository.CreateBanner, CachedRepository.bind,
      CachedRepository.backing.
    rewrite Hok; simpl. unfold CachedRepository.cached_; simpl.
    by rewrite InvalidateTopBanners_id. }
  simpl. split; [done|].
  unfold CachedRepository.GetBannerByID, CachedRepository.bind,
    CachedRepository.cached; simpl.
  erewrite GetBanner_hit;
    [ done
    | unfold InMemoryCache.SetBanner; fold (bannerKey (Banner.ID banner'));
      apply set_lookup
    | reflexivity
    | simpl; lia ].
Qed.


(** X14: a successful [DeleteClick] first looks the click up in the backing
    store, then deletes it, and evicts the statistics entries of the banner
    that the lookup named as owner; no other entry changes. *)
Theorem DeleteClick_invalidates_owner r (id : Z) (click : Click.t)
    (d1 d2 : D) :
  Repository.GetClickByID R id (CachedRepository.repo r) = (inr click, d1) ->
  Repository.DeleteClick R id d1 = (None, d2) ->
  let r1 := CachedRepository.DeleteClick R id r in
  let owner := Click.BannerID click in
  r1.1 = None /\
  CachedRepository.repo r1.2 = d2 /\
  CachedRepository.trace r1.2
  = (CachedRepository.trace r
       ++ [Repository.CallGetClickByID id;
           Repository.CallDeleteClick id])%list /\
  InMemoryCache.items (CachedRepository.cache r1.2) !! clickStatsKey owner
  = None /\
  InMemoryCache.items (CachedRepository.cache r1.2) !! bannerStatsKey owner
  = None /\
  (forall key,
     key <> clickStatsKey owner -> key <> bannerStatsKey owner ->
     InMemoryCache.items (CachedRepository.cache r1.2) !! key
     = InMemoryCache.items (CachedRepository.cache r) !! key).
Proof.
  intros Hget Hdel. cbv zeta.
  assert (CachedRepository.DeleteClick R id r
          = (None,
             {| CachedRepository.repo := d2;
                CachedRepository.cache :=
                  InMemoryCache.InvalidateBannerWithStats
                    (Click.BannerID click)
                    (InMemoryCache.InvalidateClickStats (Click.BannerID click)
                       (CachedRepository.cache r));
                CachedRepository.trace :=
                  (CachedRepository.trace r
                     ++ [Repository.CallGetClickByID id;
                         Repository.CallDeleteClick id])%list |})) as ->.
  { unfold CachedRepository.DeleteClick, CachedRepository.bind,
      CachedRepository.backing.
    rewrite Hget; simpl. rewrite Hdel; simpl.
    unfold CachedRepository.cached_; simpl.
    rewrite InvalidateTopBanners_id. by rewrite <- app_assoc. }
  simpl. rewrite invalidate_click_caches_items.
  destruct (namespaces_disjoint (Click.BannerID click) (Click.BannerID click))
    as (_ & _ & _ & H1 & _).
  repeat split.
  - rewrite lookup_delete_ne by congruence. apply lookup_delete_eq.
  - apply lookup_delete_eq.
  - intros key Hk1 Hk2. by rewrite !lookup_delete_ne by congruence.
Qed.

End ReadErrorsAndWrites.

Lemma failed_read_is_not_cached_witness :
  (CachedRepository.GetClickStats (stubRepo true false) 1 1 4
     {| CachedRepository.repo := tt;
        CachedRepository.cache := populatedCache;
        CachedRepository.trace := [] |}).1
  = (None, Some stubError) /\
  CachedRepository.cache
    (CachedRepository.GetClickStats (stubRepo true false) 1 1 4
       {| CachedRepository.repo := tt;
          CachedRepository.cache := populatedCache;
          CachedRepository.trace := [] |}).2
  = InMemoryCache.withStats CacheStats.incrMisses populatedCache.
Proof.
  pose proof (failed_read_is_not_cached (stubRepo true false)
                {| CachedRepository.repo := tt;
                   CachedRepository.cache := populatedCache;
                   CachedRepository.trace := [] |} 1 1 4 stubError tt)
    as (_ & H & _).
  destruct H as (H1 & H2 & _); [reflexivity | reflexivity |].
  split; [exact H1|exact H2].
Defined.

Lemma CreateBanner_then_read_witness :
  (CachedRepository.GetBannerByID (stubRepo false false) 2 2 7
     (CachedRepository.CreateBanner (stubRepo false false) 1 (stubBanner 7)
        {| CachedRepository.repo := tt;
           CachedRepository.cache := NewInMemoryCache;
           CachedRepository.trace := [] |}).2).1
  = (Some (stubBanner 7), None) /\
  CachedRepository.trace
    (CachedRepository.GetBannerByID (stubRepo false false) 2 2 7
       (CachedRepository.CreateBanner (stubRepo false false) 1 (stubBanner 7)
          {| CachedRepository.repo := tt;
             CachedRepository.cache := NewInMemoryCache;
             CachedRepository.trace := [] |}).2).2
  = [Repository.CallCreateBanner (stubBanner 7)].
Proof.
  pose proof (CreateBanner_then_read (stubRepo false false)
                {| CachedRepository.repo := tt;
                   CachedRepository.cache := NewInMemoryCache;
                   CachedRepository.trace := [] |}
                1 2 2 (stubBanner 7) (stubBanner 7) tt) as H.
  destruct H as (_ & H1 & _ & H2); [reflexivity | vm_compute; discriminate |].
  split; [exact H1|exact H2].
Defined.


Lemma DeleteClick_invalidates_owner_witness :
  InMemoryCache.items
    (CachedRepository.cache
       (CachedRepository.DeleteClick (stubRepo false false) 9
          {| CachedRepository.repo := tt;
             CachedRepository.cache := populatedCache;
             CachedRepository.trace := [] |}).2)
    !! clickStatsKey 3 = None /\
  CachedRepository.trace
    (CachedRepository.DeleteClick (stubRepo false false) 9
       {| CachedRepository.repo := tt;
          CachedRepository.cache := populatedCache;
          CachedRepository.trace := [] |}).2
  = [Repository.CallGetClickByID 9; Repository.CallDeleteClick 9].
Proof.
  pose proof (DeleteClick_invalidates_owner (stubRepo false false)
                {| CachedRepository.repo := tt;
                   CachedRepository.cache := populatedCache;
                   CachedRepository.trace := [] |} 9 (stubClick 9) tt tt) as H.
  destruct H as (_ & _ & H2 & H1 & _); [reflexivity | reflexivity |].
  split; [exact H1|exact H2].
Defined.

(** ** [WarmCache] *)

Section WarmCacheErrors.

Context {D C : Type} (R : Repository.Ops D)
  (repoGetAllBanners : D -> (Go.error + list Banner.t) * D)
  {K : Cache.Ops C}.

(** X15: when the listing of the banners fails, [WarmCache] returns the
    error wrapped in its own message, calls no other repository method and
    leaves the cache as it is, for any implementation of [Cache]. *)
Theorem WarmCache_listing_error (r : CachedRepository.t D C)
    (nowBanner nowStats : nat -> Z) (nowTop : Z) (e : Go.error) (d' : D) :
  repoGetAllBanners (CachedRepository.repo r) = (inl e, d') ->
  CachedRepository.WarmCache R repoGetAllBanners nowBanner nowStats nowTop r
  = (Some ("failed to warm banner cache: " +:+ e),
     {| CachedRepository.repo := d';
        CachedRepository.cache := CachedRepository.cache r;
        CachedRepository.trace := CachedRepository.trace r |}).
Proof.
  intros Hlist.
  unfold CachedRepository.WarmCache, CachedRepository.bind,
    CachedRepository.listing.
  by rewrite Hlist.
Qed.

End WarmCacheErrors.

Lemma WarmCache_listing_error_witness :
  (CachedRepository.WarmCache (stubRepo false false)
     (stubListing true []) (fun _ => 0) (fun _ => 0) 0
     {| CachedRepository.repo := tt;
        CachedRepository.cache := populatedCache;
        CachedRepository.trace := [] |})
  = (Some "failed to warm banner cache: connection refused",
     {| CachedRepository.repo := tt;
        CachedRepository.cache := populatedCache;
        CachedRepository.trace := [] |}).
Proof.
  apply (WarmCache_listing_error (stubRepo false false) (stubListing true [])
           {| CachedRepository.repo := tt;
              CachedRepository.cache := populatedCache;
              CachedRepository.trace := [] |}
           (fun _ => 0) (fun _ => 0) 0 stubError tt).
  reflexivity.
Defined.

Section WarmCacheFacts.

Context {D : Type} (R : Repository.Ops D)
  (repoGetAllBanners : D -> (Go.error + list Banner.t) * D).

Implicit Types r : CachedRepository.t D InMemoryCache.t.

Lemma warmBanners_frame (clock : nat -> Z) (banners : list Banner.t) :
  forall (i : nat) r,
    let r' := (CachedRepository.warmBanners clock i banners r).2 in
    CachedRepository.repo r' = CachedRepository.repo r /\
    CachedRepository.trace r' = CachedRepository.trace r /\
    (forall key,
       (forall b, b ∈ banners -> bannerKey (Banner.ID b) <> key) ->
       InMemoryCache.items (CachedRepository.cache r') !! key
       = InMemoryCache.items (CachedRepository.cache r) !! key).
Proof.
  induction banners as [|b rest IH]; intros i r; cbv zeta.
  - done.
  - simpl. unfold CachedRepository.bind, CachedRepository.cached_; simpl.
    destruct (IH (S i)
                {| CachedRepository.repo := CachedRepository.repo r;
                   CachedRepository.cache :=
                     InMemoryCache.SetBanner (clock i) b DefaultBannerTTL
                       (CachedRepository.cache r);
                   CachedRepository.trace := CachedRepository.trace r |})
      as (H1 & H2 & H3).
    simpl in H1, H2, H3. split; [exact H1|]. split; [exact H2|].
    intros key Hkey. rewrite H3.
    + unfold InMemoryCache.SetBanner. fold (bannerKey (Banner.ID b)).
      apply set_lookup_ne. apply Hkey. by left.
    + intros b' Hb'. apply Hkey. by right.
Qed.

Lemma warmBanners_last (clock : nat -> Z) (banners : list Banner.t) :
  forall (i k : nat) r (banner : Banner.t),
    banners !! k = Some banner ->
    (forall j b', banners !! j = Some b' -> (k < j)%nat ->
       bannerKey (Banner.ID b') <> bannerKey (Banner.ID banner)) ->
    InMemoryCache.items
      (CachedRepository.cache
         (CachedRepository.warmBanners clock i banners r).2)
      !! bannerKey (Banner.ID banner)
    = Some {| CacheItem.Value := PtrBanner banner;
              CacheItem.ExpiresAt := clock (i + k)%nat + DefaultBannerTTL |}.
Proof.
  induction banners as [|b rest IH]; intros i k r banner Hk Hlast.
  - done.
  - simpl. unfold CachedRepository.bind, CachedRepository.cached_; simpl.
    destruct k as [|k]; simpl in Hk.
    + injection Hk as ->.
      destruct (warmBanners_frame clock rest (S i)
                  {| CachedRepository.repo := CachedRepository.repo r;
                     CachedRepository.cache :=
                       InMemoryCache.SetBanner (clock i) banner
                         DefaultBannerTTL (CachedRepository.cache r);
                     CachedRepository.trace := CachedRepository.trace r |})
        as (_ & _ & H3).
      rewrite H3.
      * simpl. unfold InMemoryCache.SetBanner.
        fold (bannerKey (Banner.ID banner)).
        rewrite Nat.add_0_r. apply set_lookup.
      * intros b' Hb'. apply list_elem_of_lookup in Hb' as [j Hj].
        apply (Hlast (S j)); [done|lia].
    + replace (i + S k)%nat with (S i + k)%nat by lia.
      apply IH; [done|].
      intros j b' Hj Hlt. apply (Hlast (S j)); [done|lia].
Qed.

Lemma warmClickStats_frame (clock : nat -> Z) (banners : list Banner.t) :
  forall (i : nat) r (key : string),
    (forall id, key <> clickStatsKey id) ->
    InMemoryCache.items
      (CachedRepository.cache
         (CachedRepository.warmClickStats R clock i banners r).2) !! key
    = InMemoryCache.items (CachedRepository.cache r) !! key.
Proof.
  induction banners as [|b rest IH]; intros i r key Hkey.
  - done.
  - simpl. unfold CachedRepository.bind, CachedRepository.backing; simpl.
    destruct (Repository.GetClickStats R (Banner.ID b)
                (CachedRepository.repo r)) as [[e|stats] d]; simpl.
    + by rewrite IH.
    + unfold CachedRepository.cached_; simpl. rewrite IH by done. simpl.
      unfold InMemoryCache.SetClickStats. fold (clickStatsKey (Banner.ID b)).
      apply set_lookup_ne. by apply not_eq_sym.
Qed.

Lemma warmClickStats_trace (clock : nat -> Z) (banners : list Banner.t) :
  forall (i : nat) r,
    CachedRepository.trace
      (CachedRepository.warmClickStats R clock i banners r).2
    = (CachedRepository.trace r
         ++ map (fun b => Repository.CallGetClickStats (Banner.ID b))
              banners)%list.
Proof.
  induction banners as [|b rest IH]; intros i r.
  - simpl. by rewrite app_nil_r.
  - simpl. unfold CachedRepository.bind, CachedRepository.backing; simpl.
    destruct (Repository.GetClickStats R (Banner.ID b)
                (CachedRepository.repo r)) as [[e|stats] d]; simpl.
    + rewrite IH. simpl. by rewrite <- app_assoc.
    + unfold CachedRepository.cached_; simpl. rewrite IH. simpl.
      by rewrite <- app_assoc.
Qed.

(** X16: when the listing succeeds, [WarmCache] returns [nil] whatever the
    statistics calls and the ranked-list call answer; it asks the backing
    store for the statistics of every banner of the listing, in order, and
    then for the ranked list of limit 10; and every banner of the listing is
    cached with the default TTL, the last one of the listing when several
    share a key. *)
Theorem WarmCache_caches_banners r (nowBanner nowStats : nat -> Z)
    (nowTop : Z) (banners : list Banner.t) (d' : D) :
  repoGetAllBanners (CachedRepository.repo r) = (inr banners, d') ->
  let r1 :=
    CachedRepository.WarmCache R repoGetAllBanners nowBanner nowStats nowTop
      r in
  r1.1 = None /\
  CachedRepository.trace r1.2
  = (CachedRepository.trace r
       ++ map (fun b => Repository.CallGetClickStats (Banner.ID b)) banners
       ++ [Repository.CallGetTopBanners 10])%list /\
  (forall (k : nat) (banner : Banner.t),
     banners !! k = Some banner ->
     (forall j b', banners !! j = Some b' -> (k < j)%nat ->
        bannerKey (Banner.ID b') <> bannerKey (Banner.ID banner)) ->
     InMemoryCache.items (CachedRepository.cache r1.2)
       !! bannerKey (Banner.ID banner)
     = Some {| CacheItem.Value := PtrBanner banner;
               CacheItem.ExpiresAt := nowBanner k + DefaultBannerTTL |}).
Proof.
  intros Hlist. cbv zeta.
  unfold CachedRepository.WarmCache, CachedRepository.bind at 1 2 3.
  unfold CachedRepository.bind, CachedRepository.listing. 
  rewrite Hlist.
  set (r0 := {| CachedRepository.repo := d';
                CachedRepository.cache := CachedRepository.cache r;
                CachedRepository.trace := CachedRepository.trace r |}).
  destruct (CachedRepository.warmBanners nowBanner 0 banners r0)
    as [[] rA] eqn:EA.
  destruct (CachedRepository.warmClickStats R nowStats 0 banners rA)
    as [[] rB] eqn:EB.
  unfold CachedRepository.backing.
  assert (CachedRepository.trace rB
          = (CachedRepository.trace r
               ++ map (fun b => Repository.CallGetClickStats (Banner.ID b))
                    banners)%list) as Htrace.
  { pose proof (warmClickStats_trace nowStats banners 0 rA) as HT.
    rewrite EB in HT. simpl in HT. rewrite HT.
    destruct (warmBanners_frame nowBanner banners 0 r0) as (_ & HT' & _).
    rewrite EA in HT'. simpl in HT'. by rewrite HT'. }
  destruct (Repository.GetTopBanners R 10 (CachedRepository.repo rB))
    as [[e|top] d''].
  - simpl. split; [done|]. split; [by rewrite Htrace, <- app_assoc|].
    intros k banner Hk Hlast.
    pose proof (warmClickStats_frame nowStats banners 0 rA
                  (bannerKey (Banner.ID banner))) as HB.
    rewrite EB in HB. simpl in HB. rewrite HB.
    + pose proof (warmBanners_last nowBanner banners 0 k r0 banner Hk Hlast)
        as HA.
      rewrite EA in HA. exact HA.
    + intros id. apply (namespaces_disjoint (Banner.ID banner) id).
  - simpl. split; [done|]. split; [by rewrite Htrace, <- app_assoc|].
    intros k banner Hk Hlast.
    fold (topBannersKey 10).
    rewrite lookup_insert_ne
      by (apply not_eq_sym; apply (namespaces_disjoint (Banner.ID banner) 10)).
    pose proof (warmClickStats_frame nowStats banners 0 rA
                  (bannerKey (Banner.ID banner))) as HB.
    rewrite EB in HB. simpl in HB. rewrite HB.
    + pose proof (warmBanners_last nowBanner banners 0 k r0 banner Hk Hlast)
        as HA.
      rewrite EA in HA. exact HA.
    + intros id. apply (namespaces_disjoint (Banner.ID banner) id).
Qed.

End WarmCacheFacts.

(** X16 on a listing of banners 1, 2 and 1 again, with a database whose
    statistics and ranked-list calls fail: the warm-up still succeeds and
    the entry of banner 1 is the one written last, at instant 2. *)
Lemma WarmCache_caches_banners_witness :
  (CachedRepository.WarmCache (stubRepo true false)
     (stubListing false [stubBanner 1; stubBanner 2; stubBanner 1])
     (fun i => Z.of_nat i) (fun _ => 5) 6
     {| CachedRepository.repo := tt;
        CachedRepository.cache := NewInMemoryCache;
        CachedRepository.trace := [] |}).1
  = None /\
  InMemoryCache.items
    (CachedRepository.cache
       (CachedRepository.WarmCache (stubRepo true false)
          (stubListing false [stubBanner 1; stubBanner 2; stubBanner 1])
          (fun i => Z.of_nat i) (fun _ => 5) 6
          {| CachedRepository.repo := tt;
             CachedRepository.cache := NewInMemoryCache;
             CachedRepository.trace := [] |}).2)
    !! bannerKey 1
  = Some {| CacheItem.Value := PtrBanner (stubBanner 1);
            CacheItem.ExpiresAt := 2 + DefaultBannerTTL |}.
Proof.
  pose proof (WarmCache_caches_banners (stubRepo true false)
                (stubListing false [stubBanner 1; stubBanner 2; stubBanner 1])
                {| CachedRepository.repo := tt;
                   CachedRepository.cache := NewInMemoryCache;
                   CachedRepository.trace := [] |}
                (fun i => Z.of_nat i) (fun _ => 5) 6
                [stubBanner 1; stubBanner 2; stubBanner 1] tt) as H.
  destruct H as (H1 & _ & H2); [reflexivity|].
  split; [exact H1|].
  apply (H2 2%nat (stubBanner 1)); [reflexivity|].
  intros [|[|[|j]]] b' Hj Hlt; try lia. discriminate.
Defined.

(** ** The keys of valid and of invalid ids *)

Lemma land_255_small (x : Z) : 0 <= x <= 255 -> Z.land x 255 = x.
Proof.
  intros Hx. change 255 with (Z.ones 8). rewrite Z.land_ones by lia.
  apply Z.mod_small. lia.
Qed.

Lemma byte_inj (a b : Z) :
  0 <= a <= 255 -> 0 <= b <= 255 -> Go.byte a = Go.byte b -> a = b.
Proof.
  intros Ha Hb E. unfold Go.byte in E. rewrite !land_255_small in E by lia.
  apply (f_equal N_of_ascii) in E.
  rewrite !N_ascii_embedding in E by lia. lia.
Qed.

Lemma lor_high_low (hi lo n : Z) :
  0 <= n -> 0 <= lo < 2 ^ n -> Z.lor (hi * 2 ^ n) lo = hi * 2 ^ n + lo.
Proof.
  intros Hn Hlo.
  assert (Z.land (hi * 2 ^ n) lo = 0) as Hland.
  { apply Z.bits_inj'. intros m Hm. rewrite Z.land_spec, Z.bits_0.
    destruct (Z.lt_ge_cases m n) as [Hlt|Hge].
    - by rewrite Z.mul_pow2_bits_low by lia.
    - destruct (Z.eq_dec lo 0) as [->|Hne].
      + by rewrite Z.bits_0, andb_false_r.
      + rewrite (Z.bits_above_log2 lo m), andb_false_r; [done|lia|].
        assert (Z.log2 lo < n) by (apply Z.log2_lt_pow2; lia). lia. }
  rewrite <- Z.lxor_lor by done. symmetry. by apply Z.add_nocarry_lxor.
Qed.

Lemma land_63 (x : Z) : Z.land x 63 = x mod 64.
Proof. change 63 with (Z.ones 6). by rewrite Z.land_ones by lia. Qed.

Lemma cont_byte (x : Z) : Z.lor 128 (Z.land x 63) = 128 + x mod 64.
Proof.
  rewrite land_63. pose proof (Z.mod_pos_bound x 64 ltac:(lia)).
  apply (lor_high_low 2 (x mod 64) 6); lia.
Qed.

Lemma encoderune_valid (r : Z) :
  validRune r ->
  Go.encoderune r
  = if r <=? 127 then Go.str1 (Go.byte r)
    else if r <=? 2047 then
      String (Go.byte (192 + r / 64)) (Go.str1 (Go.byte (128 + r mod 64)))
    else if r <=? 65535 then
      String (Go.byte (224 + r / 64 / 64))
        (String (Go.byte (128 + r / 64 mod 64))
           (Go.str1 (Go.byte (128 + r mod 64))))
    else
      String (Go.byte (240 + r / 64 / 64 / 64))
        (String (Go.byte (128 + r / 64 / 64 mod 64))
           (String (Go.byte (128 + r / 64 mod 64))
              (Go.str1 (Go.byte (128 + r mod 64))))).
Proof.
  unfold validRune, Go.maxRune, Go.surrogateMin, Go.surrogateMax.
  intros (Hr & Hs). unfold Go.encoderune, Go.encode3; cbv zeta.
  unfold Go.maxRune, Go.surrogateMin, Go.surrogateMax.
  rewrite (Z.mod_small r (2 ^ 32)) by lia.
  rewrite !cont_byte, !Z.shiftr_div_pow2 by lia.
  change (2 ^ 6) with 64. change (2 ^ 12) with (64 * 64).
  change (2 ^ 18) with (64 * 64 * 64).
  rewrite <- !Z.div_div by lia.
  destruct (Z.leb_spec r 127); [done|].
  destruct (Z.leb_spec r 2047).
  { f_equal. f_equal.
    assert (0 <= r / 64 < 32) by (split; [apply Z.div_pos|apply Z.div_lt_upper_bound]; lia).
    apply (lor_high_low 6 (r / 64) 5); lia. }
  destruct (Z.ltb_spec 1114111 r); [lia|].
  destruct (Z.leb_spec 55296 r), (Z.leb_spec r 57343); simpl; try lia.
  all: destruct (Z.leb_spec r 65535).
  all: try (f_equal; f_equal;
    assert (0 <= r / 64 / 64 < 16)
      by (split; [repeat apply Z.div_pos|repeat apply Z.div_lt_upper_bound];
          lia);
    apply (lor_high_low 14 (r / 64 / 64) 4); lia).
  all: f_equal; f_equal;
    assert (0 <= r / 64 / 64 / 64 < 8)
      by (split; [repeat apply Z.div_pos|repeat apply Z.div_lt_upper_bound];
          lia);
    apply (lor_high_low 30 (r / 64 / 64 / 64) 3); lia.
Qed.

Lemma encoderune_inj (r1 r2 : Z) :
  validRune r1 -> validRune r2 ->
  Go.encoderune r1 = Go.encoderune r2 -> r1 = r2.
Proof.
  intros H1 H2. rewrite (encoderune_valid r1 H1), (encoderune_valid r2 H2).
  destruct H1 as (H1 & _), H2 as (H2 & _). unfold Go.maxRune in H1, H2.
  unfold Go.str1.
  destruct (Z.leb_spec r1 127), (Z.leb_spec r2 127);
    [|destruct (Z.leb_spec r2 2047); [|destruct (Z.leb_spec r2 65535)]; discriminate
     |destruct (Z.leb_spec r1 2047); [|destruct (Z.leb_spec r1 65535)]; discriminate|].
  { intros [= E]. apply byte_inj in E; lia. }
  destruct (Z.leb_spec r1 2047), (Z.leb_spec r2 2047);
    [|destruct (Z.leb_spec r2 65535); discriminate
     |destruct (Z.leb_spec r1 65535); discriminate|].
  { intros [= E1 E2].
    apply byte_inj in E1, E2; Z.to_euclidean_division_equations; lia. }
  destruct (Z.leb_spec r1 65535), (Z.leb_spec r2 65535); try discriminate.
  { intros [= E1 E2 E3].
    apply byte_inj in E1, E2, E3; Z.to_euclidean_division_equations; lia. }
  intros [= E1 E2 E3 E4].
  apply byte_inj in E1, E2, E3, E4; Z.to_euclidean_division_equations; lia.
Qed.

Lemma rune_range (id : Z) : - 2 ^ 31 <= Go.rune id < 2 ^ 31.
Proof.
  unfold Go.rune, Go.wrap. replace (32 - 1) with 31 by lia.
  pose proof (Z.mod_pos_bound (id + 2 ^ 31) (2 ^ 32) ltac:(lia)).
  replace (2 ^ 32) with (2 * 2 ^ 31) in *
    by (change 32 with (Z.succ 31); now rewrite Z.pow_succ_r by lia).
  lia.
Qed.

Lemma validRune_rune (id : Z) : validRune id -> Go.rune id = id.
Proof.
  unfold validRune, Go.maxRune. intros (H & _).
  apply rune_in_range. lia.
Qed.

Lemma key_suffix_inj (x y : Z) :
  bannerKey x = bannerKey y \/ clickStatsKey x = clickStatsKey y \/
  bannerStatsKey x = bannerStatsKey y \/ topBannersKey x = topBannersKey y ->
  Go.string_of_rune (Go.rune x) = Go.string_of_rune (Go.rune y).
Proof.
  unfold bannerKey, clickStatsKey, bannerStatsKey, topBannersKey; simpl.
  intros [H|[H|[H|H]]]; by injection H.
Qed.

(** X17: on valid code points the keys are what the documentation
    promises.  Two distinct ids that are code points in range and not
    surrogates have distinct keys in each of the four namespaces, and a typed
    write for one of them never changes what the typed read of the same kind
    answers for the other. *)
Theorem valid_ids_have_distinct_keys (x y : Z) :
  validRune x -> validRune y -> x <> y ->
  (bannerKey x <> bannerKey y /\
   clickStatsKey x <> clickStatsKey y /\
   bannerStatsKey x <> bannerStatsKey y /\
   topBannersKey x <> topBannersKey y) /\
  (forall (s now ttl : Z) (c : InMemoryCache.t) (banner : Banner.t)
          (stats : ClickStats.t) (both : BannerWithStats.t)
          (top : list BannerClickCount.t),
     (Banner.ID banner = x ->
      (InMemoryCache.GetBanner now y
         (InMemoryCache.SetBanner s banner ttl c)).1
      = (InMemoryCache.GetBanner now y c).1) /\
     (InMemoryCache.GetClickStats now y
        (InMemoryCache.SetClickStats s x stats ttl c)).1
     = (InMemoryCache.GetClickStats now y c).1 /\
     (InMemoryCache.GetBannerWithStats now y
        (InMemoryCache.SetBannerWithStats s x both ttl c)).1
     = (InMemoryCache.GetBannerWithStats now y c).1 /\
     (InMemoryCache.GetTopBanners now y
        (InMemoryCache.SetTopBanners s x top ttl c)).1
     = (InMemoryCache.GetTopBanners now y c).1).
Proof.
  intros Hx Hy Hne.
  assert (Hkeys :
    bannerKey x <> bannerKey y /\ clickStatsKey x <> clickStatsKey y /\
    bannerStatsKey x <> bannerStatsKey y /\ topBannersKey x <> topBannersKey y).
  { repeat split; intros E; apply Hne.
    all: rewrite <- (validRune_rune x Hx), <- (validRune_rune y Hy).
    all: apply encoderune_inj;
      [by rewrite validRune_rune | by rewrite validRune_rune |].
    all: apply key_suffix_inj; tauto. }
  split; [exact Hkeys|].
  destruct Hkeys as (K1 & K2 & K3 & K4).
  intros s now ttl c banner stats both top.
  split; [intros Hid; subst x|split; [|split]].
  - apply (proj1 (typed_reads_entry now y _ c)).
    apply (proj1 (typed_set_items s ttl y c banner stats both top _)).
    congruence.
  - apply (proj1 (proj2 (typed_reads_entry now y _ c))).
    apply (proj1 (proj2 (typed_set_items s ttl x c banner stats both top _))).
    congruence.
  - apply (proj1 (proj2 (proj2 (typed_reads_entry now y _ c)))).
    apply (proj1 (proj2 (proj2
             (typed_set_items s ttl x c banner stats both top _)))).
    congruence.
  - apply (proj2 (proj2 (proj2 (typed_reads_entry now y _ c)))).
    apply (proj2 (proj2 (proj2
             (typed_set_items s ttl x c banner stats both top _)))).
    congruence.
Qed.

Lemma valid_ids_have_distinct_keys_witness :
  bannerKey 55295 <> bannerKey 57344 /\
  topBannersKey 10 <> topBannersKey 100.
Proof.
  pose proof (valid_ids_have_distinct_keys 55295 57344) as H1.
  pose proof (valid_ids_have_distinct_keys 10 100) as H2.
  destruct H1 as ((H1 & _) & _);
    [unfold validRune, Go.maxRune, Go.surrogateMin, Go.surrogateMax; lia
    |unfold validRune, Go.maxRune, Go.surrogateMin, Go.surrogateMax; lia
    |lia|].
  destruct H2 as ((_ & _ & _ & H2) & _);
    [unfold validRune, Go.maxRune, Go.surrogateMin, Go.surrogateMax; lia
    |unfold validRune, Go.maxRune, Go.surrogateMin, Go.surrogateMax; lia
    |lia|].
  split; assumption.
Defined.

(** X18: every id whose 32-bit truncation is not a valid code point (it is
    negative, above [maxRune] or a surrogate) has, in each namespace, the key
    of id 65533, the replacement character: all these ids share their
    entries with one another and with id 65533. *)
Theorem invalid_ids_share_the_replacement_key (id : Z) :
  ~ validRune (Go.rune id) ->
  bannerKey id = bannerKey 65533 /\
  clickStatsKey id = clickStatsKey 65533 /\
  bannerStatsKey id = bannerStatsKey 65533 /\
  topBannersKey id = topBannersKey 65533.
Proof.
  intros Hbad.
  assert (Go.string_of_rune (Go.rune id) = Go.string_of_rune (Go.rune 65533))
    as E.
  { change (Go.string_of_rune (Go.rune 65533)) with (Go.encode3 Go.runeError).
    pose proof (rune_range id) as Hr. revert Hbad Hr.
    generalize (Go.rune id) as r. clear id. intros r Hbad Hr. revert Hbad.
    unfold validRune, Go.string_of_rune, Go.encoderune; cbv zeta.
    unfold Go.maxRune, Go.surrogateMin, Go.surrogateMax.
    change (2 ^ 31) with 2147483648 in Hr.
    intros Hbad.
    destruct (Z.lt_ge_cases r 0) as [Hneg|Hpos].
    - replace (r mod 2 ^ 32) with (r + 2 ^ 32)
        by (apply Z.mod_unique with (-1); lia).
      change (2 ^ 32) with 4294967296.
      destruct (Z.leb_spec (r + 4294967296) 127); [lia|].
      destruct (Z.leb_spec (r + 4294967296) 2047); [lia|].
      by destruct (Z.ltb_spec 1114111 (r + 4294967296)); [|lia].
    - rewrite Z.mod_small by lia.
      destruct (Z.leb_spec r 127); [lia|].
      destruct (Z.leb_spec r 2047); [lia|].
      destruct (Z.ltb_spec 1114111 r); [done|].
      destruct (Z.leb_spec 55296 r), (Z.leb_spec r 57343); simpl;
        try done; lia. }
  unfold bannerKey, clickStatsKey, bannerStatsKey, topBannersKey.
  by rewrite E.
Qed.

Lemma invalid_ids_share_the_replacement_key_witness :
  bannerKey (-1) = bannerKey 65533 /\ bannerKey 1114112 = bannerKey 65533.
Proof.
  pose proof (invalid_ids_share_the_replacement_key (-1)) as H1.
  pose proof (invalid_ids_share_the_replacement_key 1114112) as H2.
  destruct H1 as (H1 & _).
  { change (Go.rune (-1)) with (-1). unfold validRune. lia. }
  destruct H2 as (H2 & _).
  { change (Go.rune 1114112) with 1114112.
    unfold validRune, Go.maxRune. lia. }
  split; assumption.
Defined.

(** X19: the keys see an id through [rune(id)], its low 32 bits: two ids
    that differ by a multiple of 2^32 have the same key in each namespace. *)
Theorem ids_are_truncated_to_32_bits (id k : Z) :
  bannerKey (id + k * 2 ^ 32) = bannerKey id /\
  clickStatsKey (id + k * 2 ^ 32) = clickStatsKey id /\
  bannerStatsKey (id + k * 2 ^ 32) = bannerStatsKey id /\
  topBannersKey (id + k * 2 ^ 32) = topBannersKey id.
Proof.
  assert (Go.rune (id + k * 2 ^ 32) = Go.rune id) as E.
  { unfold Go.rune, Go.wrap.
    replace (id + k * 2 ^ 32 + 2 ^ (32 - 1))
      with (id + 2 ^ (32 - 1) + k * 2 ^ 32) by lia.
    by rewrite Z.mod_add by lia. }
  unfold bannerKey, clickStatsKey, bannerStatsKey, topBannersKey.
  by rewrite E.
Qed.

(** ** [InvalidateTopBanners] and [Clear] through the repository *)

(** X20: [InvalidateTopBanners] returns every cache as it received it,
    entries and counters alike: its guard compares the first 11 bytes of a
    key with a prefix of 12 bytes.  So a successful [CreateBanner] changes
    the cache by its [SetBanner] only. *)
Theorem InvalidateTopBanners_changes_nothing (c : InMemoryCache.t) :
  InMemoryCache.InvalidateTopBanners c = c /\
  (forall (D : Type) (R : Repository.Ops D)
          (r : CachedRepository.t D InMemoryCache.t) (now : Z)
          (banner banner' : Banner.t) (d' : D),
     Repository.CreateBanner R banner (CachedRepository.repo r)
     = ((banner', None), d') ->
     CachedRepository.cache (CachedRepository.CreateBanner R now banner r).2
     = InMemoryCache.SetBanner now banner' DefaultBannerTTL
         (CachedRepository.cache r)).
Proof.
  split; [apply InvalidateTopBanners_id|].
  intros D R r now banner banner' d' Hok.
  unfold CachedRepository.CreateBanner, CachedRepository.bind,
    CachedRepository.backing.
  rewrite Hok; simpl. apply InvalidateTopBanners_id.
Qed.

Lemma InvalidateTopBanners_changes_nothing_witness :
  InMemoryCache.InvalidateTopBanners rankedCache = rankedCache /\
  CachedRepository.cache
    (CachedRepository.CreateBanner (stubRepo false false) 1 (stubBanner 7)
       {| CachedRepository.repo := tt;
          CachedRepository.cache := rankedCache;
          CachedRepository.trace := [] |}).2
  = InMemoryCache.SetBanner 1 (stubBanner 7) DefaultBannerTTL rankedCache.
Proof.
  pose proof (InvalidateTopBanners_changes_nothing rankedCache) as (H1 & H2).
  split; [exact H1|].
  apply (H2 unit (stubRepo false false)
           {| CachedRepository.repo := tt;
              CachedRepository.cache := rankedCache;
              CachedRepository.trace := [] |} 1 (stubBanner 7) (stubBanner 7)
           tt).
  reflexivity.
Defined.

Section AfterClear.

Context {D : Type} (R : Repository.Ops D).

(** X21: after [ClearCache] nothing is served from the cache.  Each of the
    three cached reads, for any id and at any instant, calls the backing
    store, and the lookup that precedes the call counts one miss and no
    expiration. *)
Theorem ClearCache_then_reads_reach_store
    (r : CachedRepository.t D InMemoryCache.t) (now now' id : Z) :
  let r1 := (CachedRepository.ClearCache r).2 in
  let s := InMemoryCache.stats (CachedRepository.cache r) in
  let missed :=
    [CacheStats.Hits s; Go.incr64 (CacheStats.Misses s); CacheStats.Sets s;
     CacheStats.Deletes s; CacheStats.Expirations s] in
  InMemoryCache.Size (CachedRepository.cache r1) = 0 /\
  (CachedRepository.trace (CachedRepository.GetBannerByID R now now' id r1).2
   = (CachedRepository.trace r ++ [Repository.CallGetBannerByID id])%list /\
   counters (InMemoryCache.stats (InMemoryCache.GetBanner now id
                                    (CachedRepository.cache r1)).2)
   = missed) /\
  (CachedRepository.trace (CachedRepository.GetClickStats R now now' id r1).2
   = (CachedRepository.trace r ++ [Repository.CallGetClickStats id])%list /\
   counters (InMemoryCache.stats (InMemoryCache.GetClickStats now id
                                    (CachedRepository.cache r1)).2)
   = missed) /\
  (CachedRepository.trace (CachedRepository.GetTopBanners R now now' id r1).2
   = (CachedRepository.trace r ++ [Repository.CallGetTopBanners id])%list /\
   counters (InMemoryCache.stats (InMemoryCache.GetTopBanners now id
                                    (CachedRepository.cache r1)).2)
   = missed).
Proof.
  cbv zeta. simpl.
  split; [by unfold InMemoryCache.Size; simpl; rewrite map_size_empty|].
  assert (Hget : forall key,
            InMemoryCache.get now key
              (InMemoryCache.Clear (CachedRepository.cache r))
            = ((None, false),
               InMemoryCache.withStats CacheStats.incrMisses
                 (InMemoryCache.Clear (CachedRepository.cache r)))).
  { intros key. apply get_absent. apply lookup_empty. }
  split; [|split].
  - unfold CachedRepository.GetBannerByID, CachedRepository.bind,
      CachedRepository.cached, CachedRepository.backing; simpl.
    rewrite GetBanner_get, Hget; cbv zeta; simpl.
    by destruct (Repository.GetBannerByID R id (CachedRepository.repo r))
      as [[?|?] ?].
  - unfold CachedRepository.GetClickStats, CachedRepository.bind,
      CachedRepository.cached, CachedRepository.backing; simpl.
    rewrite GetClickStats_get, Hget; cbv zeta; simpl.
    by destruct (Repository.GetClickStats R id (CachedRepository.repo r))
      as [[?|?] ?].
  - unfold CachedRepository.GetTopBanners, CachedRepository.bind,
      CachedRepository.cached, CachedRepository.backing; simpl.
    rewrite GetTopBanners_get, Hget; cbv zeta; simpl.
    by destruct (Repository.GetTopBanners R id (CachedRepository.repo r))
      as [[?|?] ?].
Qed.

End AfterClear.

Example ClearCache_populatedCache :
  CachedRepository.trace
    (CachedRepository.GetClickStats (stubRepo false false) 1 1 3
       (CachedRepository.ClearCache
          {| CachedRepository.repo := tt;
             CachedRepository.cache := populatedCache;
             CachedRepository.trace := [] |}).2).2
  = [Repository.CallGetClickStats 3].
Proof. reflexivity. Qed.
